(** * keyvalue-store: the core service over a quorum engine

    A shallow embedding of [internal/core/service.go] together with the
    vocabulary of [pkg/keyvaluestore] it relies on.  The service talks to
    two collaborators through interfaces, the cluster and the engine; a
    service operation is therefore embedded as a tree of calls to these
    collaborators, and is run against an arbitrary environment that
    answers the calls. *)

From Stdlib Require Import ZArith String List Bool Lia Sorted Permutation.
From Stdlib Require Import Init.Byte.
From stdpp Require Import base option list gmap sorting.
Import ListNotations.

(** ** Go base types *)

(** [int64] arithmetic wraps around. *)
Definition int64_wrap (z : Z) : Z := ((z + 2 ^ 63) mod 2 ^ 64 - 2 ^ 63)%Z.



Module time.
(** [type Duration int64], counted in nanoseconds. *)
Definition Duration := Z.
Definition Nanosecond : Duration := 1%Z.
Definition Millisecond : Duration := 1000000%Z.
Definition Second : Duration := 1000000000%Z.
Definition Minute : Duration := (60 * Second)%Z.

Definition sub (x y : Duration) : Duration := int64_wrap (x - y).
Definition neg (x : Duration) : Duration := int64_wrap (- x).
End time.

(** Run-time panics of the Go runtime that the service can raise. *)
Inductive panic : Type :=
| nil_pointer_dereference
| interface_conversion.

(** The outcome of running Go code: a result, or a panic. *)
Inductive Result (A : Type) : Type :=
| Done (a : A)
| Fault (p : panic).

Arguments Done {A} a.
Arguments Fault {A} p.

(** ** pkg/keyvaluestore *)

Inductive ConsistencyLevel : Type :=
| ConsistencyLevel_DEFAULT
| ConsistencyLevel_ONE
| ConsistencyLevel_MAJORITY
| ConsistencyLevel_ALL.

Inductive OperationMode : Type :=
| OperationModeConcurrent
| OperationModeSequential.

Inductive VotingMode : Type :=
| VotingModeVoteOnNotFound
| VotingModeSkipVoteOnNotFound.

(** gRPC status codes used at the transport edge. *)
Inductive Code : Type :=
| codes_Canceled
| codes_NotFound
| codes_DeadlineExceeded
| codes_Internal
| codes_Unavailable.

(** Values of Go's [error] interface met by the service; the nil error is
    [None] of [option error].  [status_Error c e] is
    [status.Error(c, e.Error())]: the description is kept as the error
    whose text it carries. *)
Inductive error : Type :=
| ErrNotFound
| ErrConsistency
| ErrNotAcquired
| ErrClosed
| context_Canceled
| context_DeadlineExceeded
| errors_New (text : string)
| status_Error (c : Code) (description_of : error).

(** [err == keyvaluestore.ErrNotFound] *)
Definition is_ErrNotFound (err : option error) : bool :=
  match err with
  | Some ErrNotFound => true
  | _ => false
  end.

(** A backend is an opaque handle with a stable address. *)
Record Backend : Type := mkBackend {
  handle : nat;
  Address : string
}.

(** Values of [interface{}] that travel through the engine.  A
    [*time.Duration] stored in an interface is a non-nil interface even
    when the pointer is nil, hence the [option] under [duration_ptr]. *)
Inductive Value : Type :=
| nil_value
| bytes_value (data : list byte)
| duration_ptr (p : option time.Duration)
| bool_value (b : bool).

(** [v != nil] on an interface value *)
Definition is_nil (v : Value) : bool :=
  match v with
  | nil_value => true
  | _ => false
  end.

(** ** Programs over an interface

    [Free E R] is a computation that returns an [R], panics, or invokes a
    method [E X] of a collaborator and continues with its answer. *)
Inductive Free (E : Type -> Type) (R : Type) : Type :=
| Return (r : R)
| Abort (p : panic)
| Invoke (X : Type) (c : E X) (k : X -> Free E R).

Arguments Return {E R} r.
Arguments Abort {E R} p.
Arguments Invoke {E R X} c k.

Fixpoint bind {E : Type -> Type} {A B : Type}
    (p : Free E A) (f : A -> Free E B) : Free E B :=
  match p with
  | Return a => f a
  | Abort e => Abort e
  | Invoke c k => Invoke c (fun x => bind (k x) f)
  end.

Definition call {E : Type -> Type} {X : Type} (c : E X) : Free E X :=
  Invoke c Return.

Declare Scope prog_scope.
Delimit Scope prog_scope with prog.
Notation "x <- p ;; q" := (bind p (fun x => q))
  (at level 100, p at next level, right associativity) : prog_scope.
Notation "p ;;; q" := (bind p (fun _ => q))
  (at level 100, right associativity) : prog_scope.

(** The methods of [keyvaluestore.Backend] that operators invoke on a node. *)
Inductive BackendMethod : Type -> Type :=
| Backend_Set (node : Backend) (key : string) (value : list byte)
    (expiration : time.Duration) : BackendMethod (option error)
| Backend_Get (node : Backend) (key : string)
    : BackendMethod (list byte * option error)
| Backend_Delete (node : Backend) (key : string) : BackendMethod (option error)
| Backend_TTL (node : Backend) (key : string)
    : BackendMethod (option time.Duration * option error)
| Backend_Expire (node : Backend) (key : string) (expiration : time.Duration)
    : BackendMethod (option error)
| Backend_Exists (node : Backend) (key : string)
    : BackendMethod (bool * option error)
| Backend_Lock (node : Backend) (key : string) (value : list byte)
    (expiration : time.Duration) : BackendMethod (option error)
| Backend_Unlock (node : Backend) (key : string) : BackendMethod (option error)
| Backend_FlushDB (node : Backend) : BackendMethod (option error).

(** engine.go *)
Definition ReadOperator : Type := Backend -> Free BackendMethod (Value * option error).
Definition WriteOperator : Type := Backend -> Free BackendMethod (option error).
Definition ValueComparer : Type := Value -> Value -> Result bool.

Record RepairArgs : Type := mkRepairArgs {
  Value_ : Value;
  Err : option error;
  Winners : list Backend;
  Losers : list Backend
}.

Record RollbackArgs : Type := mkRollbackArgs {
  Nodes : list Backend
}.

Record ReadClusterView : Type := mkReadClusterView {
  rBackends : list Backend;
  VoteRequired : Z;
  VotingMode_ : VotingMode
}.

Record WriteClusterView : Type := mkWriteClusterView {
  Backends : list Backend;
  AcknowledgeRequired : Z
}.

#[local] Set Warnings "-register-all".

(** The calls the service makes on its collaborators: the cluster, the
    engine and the logger.  Repair and rollback operators are closures of
    the service handed to the engine; they are programs over the same
    interface. *)
Inductive Call : Type -> Type :=
| cluster_Read (key : string) (consistency : ConsistencyLevel)
    : Call (ReadClusterView * option error)
| cluster_Write (key : string) (consistency : ConsistencyLevel)
    : Call (WriteClusterView * option error)
| cluster_FlushDB : Call (WriteClusterView * option error)
| cluster_Close : Call (option error)
| engine_Read (nodes : list Backend) (votesRequired : Z)
    (operator : ReadOperator)
    (repair : option (RepairArgs -> Free Call unit))
    (cmp : ValueComparer) (mode : VotingMode)
    : Call (Value * option error)
| engine_Write (nodes : list Backend) (acknowledgeRequired : Z)
    (operator : WriteOperator)
    (rollback : RollbackArgs -> Free Call unit)
    (mode : OperationMode)
    : Call (option error)
| engine_Close : Call (option error)
| logrus_Error (err : error) (message : string) : Call unit.

Definition Prog : Type -> Type := Free Call.
Definition RepairOperator : Type := RepairArgs -> Prog unit.
Definition RollbackOperator : Type := RollbackArgs -> Prog unit.

(** ** Running a program against its collaborators

    An environment answers every call from its current state.  Running a
    program yields its outcome and the trace of the calls made, each with
    the answer it received. *)
Record Env (E : Type -> Type) : Type := mkEnv {
  world : Type;
  answer : forall X : Type, E X -> world -> X * world
}.

Arguments world {E} _.
Arguments answer {E} _ {X} _ _.

Inductive Event (E : Type -> Type) : Type :=
| Ev (X : Type) (c : E X) (x : X).

Arguments Ev {E X} c x.

Fixpoint exec {E : Type -> Type} {R : Type} (env : Env E)
    (p : Free E R) (w : world env) : Result R * list (Event E) * world env :=
  match p with
  | Return r => (Done r, [], w)
  | Abort e => (Fault e, [], w)
  | Invoke c k =>
      let (x, w1) := answer env c w in
      let '(o, t, w2) := exec env (k x) w1 in
      (o, Ev c x :: t, w2)
  end.

Definition result_of {E R} (env : Env E) (p : Free E R) (w : world env)
    : Result R :=
  fst (fst (exec env p w)).

Definition trace_of {E R} (env : Env E) (p : Free E R) (w : world env)
    : list (Event E) :=
  snd (fst (exec env p w)).

Definition world_after {E R} (env : Env E) (p : Free E R) (w : world env)
    : world env :=
  snd (exec env p w).

(** ** Go idioms used by the service *)

Definition rbind {A B : Type} (r : Result A) (f : A -> Result B) : Result B :=
  match r with
  | Done a => f a
  | Fault p => Fault p
  end.

Definition lift {E : Type -> Type} {A : Type} (r : Result A) : Free E A :=
  match r with
  | Done a => Return a
  | Fault p => Abort p
  end.

(** Type assertions [v.(T)] panic when [v] does not hold a [T]. *)
Definition as_bytes (v : Value) : Result (list byte) :=
  match v with
  | bytes_value data => Done data
  | _ => Fault interface_conversion
  end.

Definition as_bool (v : Value) : Result bool :=
  match v with
  | bool_value b => Done b
  | _ => Fault interface_conversion
  end.

Definition as_duration_ptr (v : Value) : Result (option time.Duration) :=
  match v with
  | duration_ptr p => Done p
  | _ => Fault interface_conversion
  end.

(** [*p] *)
Definition deref (p : option time.Duration) : Result time.Duration :=
  match p with
  | Some d => Done d
  | None => Fault nil_pointer_dereference
  end.

(** [*(v.( *time.Duration))] *)
Definition duration_of (v : Value) : Result time.Duration :=
  rbind (as_duration_ptr v) deref.

(** [bytes.Equal] *)
Definition bytes_Equal (a b : list byte) : bool :=
  if Stdlib.Lists.List.list_eq_dec Byte.byte_eq_dec a b then true else false.

(** [len(nodes)] *)
Definition len {A : Type} (l : list A) : Z := Z.of_nat (length l).

(** [sort.Slice] of the Go standard library sorts a slice in place with
    respect to [less]; the order among elements that [less] does not
    separate is not specified.  Its contract is all the service relies
    on: the outcome is a rearrangement of the input in which no element
    is [less] than one before it, provided [less] is a strict weak
    ordering. *)
Definition strict_weak {A : Type} (less : A -> A -> bool) : Prop :=
  (forall a b, less a b = true -> less b a = false) /\
  (forall a b c, less b a = false -> less c b = false -> less c a = false).

Definition ascending {A : Type} (less : A -> A -> bool) : list A -> Prop :=
  StronglySorted (fun a b => less b a = false).

Class SliceSorter : Type := {
  sort_Slice : forall A : Type, (A -> A -> bool) -> list A -> list A;
  sort_Slice_Permutation :
    forall (A : Type) (less : A -> A -> bool) (l : list A),
      Permutation l (sort_Slice A less l);
  sort_Slice_ascending :
    forall (A : Type) (less : A -> A -> bool) (l : list A),
      strict_weak less -> ascending less (sort_Slice A less l)
}.

Arguments sort_Slice {_} {A} less l.

(** ** internal/core: requests and responses *)

Module ReadOptions.
Record t : Type := mk { Consistency : ConsistencyLevel }.
End ReadOptions.

Module WriteOptions.
Record t : Type := mk { Consistency : ConsistencyLevel }.
End WriteOptions.

Module SetRequest.
Record t : Type := mk {
  Key : string; Data : list byte; Expiration : time.Duration;
  Options : WriteOptions.t }.
End SetRequest.

Module GetRequest.
Record t : Type := mk { Key : string; Options : ReadOptions.t }.
End GetRequest.

Module GetResponse.
Record t : Type := mk { Data : list byte }.
End GetResponse.

Module DeleteRequest.
Record t : Type := mk { Key : string; Options : WriteOptions.t }.
End DeleteRequest.

Module LockRequest.
Record t : Type := mk {
  Key : string; Data : list byte; Expiration : time.Duration;
  Options : WriteOptions.t }.
End LockRequest.

Module UnlockRequest.
Record t : Type := mk { Key : string; Options : WriteOptions.t }.
End UnlockRequest.

Module ExpireRequest.
Record t : Type := mk {
  Key : string; Expiration : time.Duration; Options : WriteOptions.t }.
End ExpireRequest.

Module ExpireResponse.
Record t : Type := mk { Exists : bool }.
End ExpireResponse.

Module ExistsRequest.
Record t : Type := mk { Key : string; Options : ReadOptions.t }.
End ExistsRequest.

Module ExistsResponse.
Record t : Type := mk { Exists : bool }.
End ExistsResponse.

Module GetTTLRequest.
Record t : Type := mk { Key : string; Options : ReadOptions.t }.
End GetTTLRequest.

Module GetTTLResponse.
Record t : Type := mk { TTL : option time.Duration }.
End GetTTLResponse.

(** ** internal/core/service.go *)

Definition acceptableDurationDiff : time.Duration := (2 * time.Second)%Z.

(** The cluster and the engine of a [coreService] are the collaborators
    behind [Call]; the record keeps the two configured defaults. *)
Record coreService : Type := mkCoreService {
  defaultWriteConsistency : ConsistencyLevel;
  defaultReadConsistency : ConsistencyLevel
}.

Definition Option : Type := coreService -> coreService.

Definition New (options : list Option) : coreService :=
  let result := {|
    defaultReadConsistency := ConsistencyLevel_MAJORITY;
    defaultWriteConsistency := ConsistencyLevel_ALL |} in
  fold_left (fun result option => option result) options result.

Definition WithDefaultReadConsistency (c : ConsistencyLevel) : Option :=
  fun s => {|
    defaultWriteConsistency := defaultWriteConsistency s;
    defaultReadConsistency := c |}.

Definition WithDefaultWriteConsistency (c : ConsistencyLevel) : Option :=
  fun s => {|
    defaultWriteConsistency := c;
    defaultReadConsistency := defaultReadConsistency s |}.

Definition writeConsistency (s : coreService) (writeOptions : WriteOptions.t)
    : ConsistencyLevel :=
  match WriteOptions.Consistency writeOptions with
  | ConsistencyLevel_DEFAULT => defaultWriteConsistency s
  | c => c
  end.

Definition readConsistency (s : coreService) (readOptions : ReadOptions.t)
    : ConsistencyLevel :=
  match ReadOptions.Consistency readOptions with
  | ConsistencyLevel_DEFAULT => defaultReadConsistency s
  | c => c
  end.

Definition byteComparer (x y : Value) : Result bool :=
  rbind (as_bytes x) (fun bx =>
  rbind (as_bytes y) (fun by_ =>
  Done (bytes_Equal bx by_))).

Definition durationComparer (x y : Value) : Result bool :=
  if is_nil x then Done (is_nil y)
  else if is_nil y then Done false
  else
    rbind (duration_of x) (fun dx =>
    rbind (duration_of y) (fun dy =>
    let diff := time.sub dx dy in
    let diff := if (diff <? 0)%Z then time.neg diff else diff in
    Done (diff <? acceptableDurationDiff)%Z)).

Definition booleanComparer (x y : Value) : Result bool :=
  rbind (as_bool x) (fun bx =>
  rbind (as_bool y) (fun by_ =>
  Done (Bool.eqb bx by_))).

Definition convertErrorToGRPC (err : option error) : option error :=
  match err with
  | None => None
  | Some ErrNotFound => Some (status_Error codes_NotFound ErrNotFound)
  | Some ErrConsistency => Some (status_Error codes_Unavailable ErrConsistency)
  | Some context_Canceled => Some (status_Error codes_Canceled context_Canceled)
  | Some context_DeadlineExceeded =>
      Some (status_Error codes_DeadlineExceeded context_Canceled)
  | Some e => Some (status_Error codes_Internal e)
  end.

(** Go's [/] on [int] truncates towards zero. *)
Definition majority (n : Z) : Z := (Z.quot n 2 + 1)%Z.

Local Open Scope prog_scope.

(** [logrus.WithError(err).Error(message)] *)
Definition logError (err : error) (message : string) : Prog unit :=
  call (logrus_Error err message).

(** [if err != nil { logrus.WithError(err).Error(message) }] *)
Definition logIfError (err : option error) (message : string) : Prog unit :=
  match err with
  | Some e => logError e message
  | None => Return tt
  end.

Section Service.
Context {sorter : SliceSorter}.
Variable s : coreService.

Definition sortNodes (nodes : list Backend) : list Backend :=
  let result : list Backend := [] in
  let result := result ++ nodes in
  sort_Slice
    (fun a b : Backend => String.ltb (Address a) (Address b)) result.

Definition performWrite (key : string) (options : WriteOptions.t)
    (operator : WriteOperator) (rollback : RollbackOperator)
    (mode : OperationMode) : Prog (option error) :=
  let consistency := writeConsistency s options in
  r <- call (cluster_Write key consistency) ;;
  let (view, err) := r : WriteClusterView * option error in
  match err with
  | Some e => Return (Some e)
  | None =>
      let view :=
        match mode with
        | OperationModeSequential =>
            {| Backends := sortNodes (Backends view);
               AcknowledgeRequired := AcknowledgeRequired view |}
        | OperationModeConcurrent => view
        end in
      call (engine_Write (Backends view) (AcknowledgeRequired view)
              operator rollback mode)
  end.

Definition performFlushDb : Prog (option error) :=
  let operator : WriteOperator := fun node => call (Backend_FlushDB node) in
  let rollback : RollbackOperator := fun args => Return tt in
  r <- call cluster_FlushDB ;;
  let (view, err) := r : WriteClusterView * option error in
  match err with
  | Some e => Return (Some e)
  | None =>
      call (engine_Write (Backends view) (AcknowledgeRequired view)
              operator rollback OperationModeConcurrent)
  end.

Definition performRead (key : string) (options : ReadOptions.t)
    (readOperator : ReadOperator) (repairOperator : RepairOperator)
    (comparer : ValueComparer) : Prog (Value * option error) :=
  let consistency := readConsistency s options in
  r <- call (cluster_Read key consistency) ;;
  let (view, err) := r : ReadClusterView * option error in
  match err with
  | Some e => Return (nil_value, Some e)
  | None =>
      call (engine_Read (rBackends view) (VoteRequired view)
              readOperator (Some repairOperator) comparer (VotingMode_ view))
  end.

(** *** Set *)
Section Set_.
Variable request : SetRequest.t.

Definition Set_writeOperator : WriteOperator := fun node =>
  call (Backend_Set node (SetRequest.Key request)
          (SetRequest.Data request) (SetRequest.Expiration request)).

Definition Set_deleteOperator : WriteOperator := fun backend =>
  call (Backend_Delete backend (SetRequest.Key request)).

Definition Set_deleteRollbackOperator : RollbackOperator := fun args =>
  Return tt.

Definition Set_rollbackOperator : RollbackOperator := fun args =>
  err <- call (engine_Write (Nodes args) 0 Set_deleteOperator
                 Set_deleteRollbackOperator OperationModeConcurrent) ;;
  logIfError err "unexpected error during SET rollback".

Definition Set_ : Prog (option error) :=
  err <- performWrite (SetRequest.Key request) (SetRequest.Options request)
           Set_writeOperator Set_rollbackOperator OperationModeConcurrent ;;
  Return (convertErrorToGRPC err).
End Set_.

(** *** Get *)
Section Get.
Variable request : GetRequest.t.

Definition Get_readOperator : ReadOperator := fun node =>
  r <- call (Backend_Get node (GetRequest.Key request)) ;;
  Return (bytes_value (fst r), snd r).

Definition Get_deleteOperator : WriteOperator := fun node =>
  call (Backend_Delete node (GetRequest.Key request)).

Definition Get_deleteRollbackOperator : RollbackOperator := fun args =>
  Return tt.

Definition Get_ttlOperator : ReadOperator := fun node =>
  r <- call (Backend_TTL node (GetRequest.Key request)) ;;
  Return (duration_ptr (fst r), snd r).

Definition Get_setOperator (args : RepairArgs) (ttl : time.Duration)
    : WriteOperator := fun node =>
  data <- lift (as_bytes (Value_ args)) ;;
  call (Backend_Set node (GetRequest.Key request) data ttl).

Definition Get_setRollbackOperator : RollbackOperator := fun rollbackArgs =>
  err <- call (engine_Write (Nodes rollbackArgs) 0 Get_deleteOperator
                 Get_deleteRollbackOperator OperationModeConcurrent) ;;
  logIfError err "unexpected error during SET rollback".

Definition Get_repairOperator : RepairOperator := fun args =>
  if is_ErrNotFound (Err args) then
    err <- call (engine_Write (Losers args) 0 Get_deleteOperator
                   Get_deleteRollbackOperator OperationModeConcurrent) ;;
    logIfError err "unexpected error during read repair"
  else
    r <- call (engine_Read (Winners args) (majority (len (Winners args)))
                 Get_ttlOperator None durationComparer
                 VotingModeSkipVoteOnNotFound) ;;
    let (ttlValue, err) := r : Value * option error in
    match err with
    | Some e => logError e "unexpected error during read repair"
    | None =>
        st <- (if negb (is_nil ttlValue) then
                 ttl <- lift (duration_of ttlValue) ;;
                 Return (ttl, if (ttl =? 0)%Z then false else true)
               else Return (0%Z, true)) ;;
        let (ttl, shouldRepair) := st : time.Duration * bool in
        if shouldRepair then
          err <- call (engine_Write (Losers args) 0
                         (Get_setOperator args ttl)
                         Get_setRollbackOperator
                         OperationModeConcurrent) ;;
          logIfError err "unexpected error during read repair"
        else Return tt
    end.

Definition Get : Prog (option GetResponse.t * option error) :=
  r <- performRead (GetRequest.Key request) (GetRequest.Options request)
         Get_readOperator Get_repairOperator byteComparer ;;
  let (rawResult, err) := r : Value * option error in
  match err with
  | Some e => Return (None, convertErrorToGRPC (Some e))
  | None =>
      data <- lift (as_bytes rawResult) ;;
      Return (Some (GetResponse.mk data), None)
  end.
End Get.

(** *** Delete *)
Section Delete.
Variable request : DeleteRequest.t.

Definition Delete_writeOperator : WriteOperator := fun node =>
  call (Backend_Delete node (DeleteRequest.Key request)).

Definition Delete_rollbackOperator : RollbackOperator := fun args =>
  Return tt.

Definition Delete : Prog (option error) :=
  err <- performWrite (DeleteRequest.Key request)
           (DeleteRequest.Options request)
           Delete_writeOperator Delete_rollbackOperator
           OperationModeConcurrent ;;
  Return (convertErrorToGRPC err).
End Delete.

(** *** FlushDB *)
Definition FlushDB : Prog (option error) :=
  err <- performFlushDb ;;
  Return (convertErrorToGRPC err).

(** *** Lock *)
Section Lock.
Variable request : LockRequest.t.

Definition Lock_writeOperator : WriteOperator := fun node =>
  call (Backend_Lock node (LockRequest.Key request)
          (LockRequest.Data request) (LockRequest.Expiration request)).

Definition Lock_unlockOperator : WriteOperator := fun node =>
  call (Backend_Unlock node (LockRequest.Key request)).

Definition Lock_unlockRollbackOperator : RollbackOperator := fun args =>
  Return tt.

Definition Lock_rollbackOperator : RollbackOperator := fun args =>
  err <- call (engine_Write (Nodes args) 0 Lock_unlockOperator
                 Lock_unlockRollbackOperator OperationModeConcurrent) ;;
  logIfError err "unexpected error during LOCK rollback".

Definition Lock : Prog (option error) :=
  err <- performWrite (LockRequest.Key request) (LockRequest.Options request)
           Lock_writeOperator Lock_rollbackOperator
           OperationModeSequential ;;
  Return (convertErrorToGRPC err).
End Lock.

(** *** Unlock *)
Section Unlock.
Variable request : UnlockRequest.t.

Definition Unlock_writeOperator : WriteOperator := fun backend =>
  call (Backend_Unlock backend (UnlockRequest.Key request)).

Definition Unlock_rollbackOperator : RollbackOperator := fun args =>
  Return tt.

Definition Unlock : Prog (option error) :=
  err <- performWrite (UnlockRequest.Key request)
           (UnlockRequest.Options request)
           Unlock_writeOperator Unlock_rollbackOperator
           OperationModeConcurrent ;;
  Return (convertErrorToGRPC err).
End Unlock.

(** *** Expire *)
Section Expire.
Variable request : ExpireRequest.t.

Definition Expire_readOperator : ReadOperator := fun node =>
  err <- call (Backend_Expire node (ExpireRequest.Key request)
                 (ExpireRequest.Expiration request)) ;;
  match err with
  | Some e => Return (bool_value false, Some e)
  | None => Return (bool_value true, None)
  end.

Definition Expire_deleteOperator : WriteOperator := fun node =>
  call (Backend_Delete node (ExpireRequest.Key request)).

Definition Expire_deleteRollbackOperator : RollbackOperator := fun args =>
  Return tt.

Definition Expire_ttlOperator : ReadOperator := fun node =>
  r <- call (Backend_TTL node (ExpireRequest.Key request)) ;;
  Return (duration_ptr (fst r), snd r).

Definition Expire_getOperator : ReadOperator := fun node =>
  r <- call (Backend_Get node (ExpireRequest.Key request)) ;;
  Return (bytes_value (fst r), snd r).

Definition Expire_setOperator (rawValue : Value) (ttl : time.Duration)
    : WriteOperator := fun node =>
  data <- lift (as_bytes rawValue) ;;
  call (Backend_Set node (ExpireRequest.Key request) data ttl).

Definition Expire_setRollbackOperator : RollbackOperator :=
  fun rollbackArgs =>
  err <- call (engine_Write (Nodes rollbackArgs) 0 Expire_deleteOperator
                 Expire_deleteRollbackOperator OperationModeConcurrent) ;;
  logIfError err "unexpected error during SET rollback".

(** The part of the repair after the time to live is settled: read
    the value from the winners and set it on the losers. *)
Definition Expire_repairValue (args : RepairArgs) (ttl : time.Duration)
    : Prog unit :=
  r <- call (engine_Read (Winners args) (majority (len (Winners args)))
               Expire_getOperator None byteComparer
               VotingModeSkipVoteOnNotFound) ;;
  let (rawValue, err) := r : Value * option error in
  match err with
  | Some e => logError e "unexpected error during read repair"
  | None =>
      err <- call (engine_Write (Losers args) 0
                     (Expire_setOperator rawValue ttl)
                     Expire_setRollbackOperator
                     OperationModeConcurrent) ;;
      logIfError err "unexpected error during read repair"
  end.

Definition Expire_repairOperator : RepairOperator := fun args =>
  if is_ErrNotFound (Err args) then
    err <- call (engine_Write (Losers args) 0 Expire_deleteOperator
                   Expire_deleteRollbackOperator OperationModeConcurrent) ;;
    logIfError err "unexpected error during read repair"
  else
    r <- call (engine_Read (Winners args) (majority (len (Winners args)))
                 Expire_ttlOperator None durationComparer
                 VotingModeSkipVoteOnNotFound) ;;
    let (ttlValue, err) := r : Value * option error in
    match err with
    | Some e => logError e "unexpected error during read repair"
    | None =>
        if negb (is_nil (Value_ args)) then
          ttl <- lift (duration_of ttlValue) ;;
          if (ttl =? 0)%Z then
            err <- call (engine_Write (Losers args) 0 Expire_deleteOperator
                           Expire_deleteRollbackOperator
                           OperationModeConcurrent) ;;
            logIfError err "unexpected error during read repair"
          else Expire_repairValue args ttl
        else Expire_repairValue args 0%Z
    end.

Definition Expire : Prog (option ExpireResponse.t * option error) :=
  r <- performRead (ExpireRequest.Key request)
         (ReadOptions.mk
            (WriteOptions.Consistency (ExpireRequest.Options request)))
         Expire_readOperator Expire_repairOperator booleanComparer ;;
  let (rawResult, err) := r : Value * option error in
  match err with
  | Some e =>
      if is_ErrNotFound (Some e) then
        Return (Some (ExpireResponse.mk false), None)
      else Return (None, convertErrorToGRPC (Some e))
  | None =>
      b <- lift (as_bool rawResult) ;;
      Return (Some (ExpireResponse.mk b), None)
  end.
End Expire.

(** *** Exists *)
Section Exists_.
Variable request : ExistsRequest.t.

Definition Exists_readOperator : ReadOperator := fun node =>
  r <- call (Backend_Exists node (ExistsRequest.Key request)) ;;
  let (result, err) := r : bool * option error in
  match err with
  | Some e => Return (bool_value false, Some e)
  | None =>
      if negb result then Return (bool_value false, Some ErrNotFound)
      else Return (bool_value true, None)
  end.

Definition Exists_deleteOperator : WriteOperator := fun node =>
  call (Backend_Delete node (ExistsRequest.Key request)).

Definition Exists_deleteRollbackOperator : RollbackOperator := fun args =>
  Return tt.

Definition Exists_ttlOperator : ReadOperator := fun node =>
  r <- call (Backend_TTL node (ExistsRequest.Key request)) ;;
  Return (duration_ptr (fst r), snd r).

Definition Exists_getOperator : ReadOperator := fun node =>
  r <- call (Backend_Get node (ExistsRequest.Key request)) ;;
  Return (bytes_value (fst r), snd r).

Definition Exists_setOperator (rawValue : Value) (ttl : time.Duration)
    : WriteOperator := fun node =>
  data <- lift (as_bytes rawValue) ;;
  call (Backend_Set node (ExistsRequest.Key request) data ttl).

Definition Exists_setRollbackOperator : RollbackOperator :=
  fun rollbackArgs =>
  err <- call (engine_Write (Nodes rollbackArgs) 0 Exists_deleteOperator
                 Exists_deleteRollbackOperator OperationModeConcurrent) ;;
  logIfError err "unexpected error during SET rollback".

Definition Exists_repairValue (args : RepairArgs) (ttl : time.Duration)
    : Prog unit :=
  r <- call (engine_Read (Winners args) (majority (len (Winners args)))
               Exists_getOperator None byteComparer
               VotingModeSkipVoteOnNotFound) ;;
  let (rawValue, err) := r : Value * option error in
  match err with
  | Some e => logError e "unexpected error during read repair"
  | None =>
      err <- call (engine_Write (Losers args) 0
                     (Exists_setOperator rawValue ttl)
                     Exists_setRollbackOperator
                     OperationModeConcurrent) ;;
      logIfError err "unexpected error during read repair"
  end.

Definition Exists_repairOperator : RepairOperator := fun args =>
  if is_ErrNotFound (Err args) then
    err <- call (engine_Write (Losers args) 0 Exists_deleteOperator
                   Exists_deleteRollbackOperator OperationModeConcurrent) ;;
    logIfError err "unexpected error during read repair"
  else
    r <- call (engine_Read (Winners args) (majority (len (Winners args)))
                 Exists_ttlOperator None durationComparer
                 VotingModeSkipVoteOnNotFound) ;;
    let (ttlValue, err) := r : Value * option error in
    match err with
    | Some e => logError e "unexpected error during read repair"
    | None =>
        if negb (is_nil (Value_ args)) then
          ttl <- lift (duration_of ttlValue) ;;
          if (ttl =? 0)%Z then
            err <- call (engine_Write (Losers args) 0 Exists_deleteOperator
                           Exists_deleteRollbackOperator
                           OperationModeConcurrent) ;;
            logIfError err "unexpected error during read repair"
          else Exists_repairValue args ttl
        else Exists_repairValue args 0%Z
    end.

Definition Exists : Prog (option ExistsResponse.t * option error) :=
  r <- performRead (ExistsRequest.Key request)
         (ExistsRequest.Options request)
         Exists_readOperator Exists_repairOperator booleanComparer ;;
  let (rawResult, err) := r : Value * option error in
  match err with
  | Some e =>
      if is_ErrNotFound (Some e) then
        Return (Some (ExistsResponse.mk false), None)
      else Return (None, convertErrorToGRPC (Some e))
  | None =>
      b <- lift (as_bool rawResult) ;;
      Return (Some (ExistsResponse.mk b), None)
  end.
End Exists_.

(** *** GetTTL *)
Section GetTTL.
Variable request : GetTTLRequest.t.

Definition GetTTL_readOperator : ReadOperator := fun node =>
  r <- call (Backend_TTL node (GetTTLRequest.Key request)) ;;
  Return (duration_ptr (fst r), snd r).

Definition GetTTL_deleteOperator : WriteOperator := fun node =>
  call (Backend_Delete node (GetTTLRequest.Key request)).

Definition GetTTL_deleteRollbackOperator : RollbackOperator := fun args =>
  Return tt.

Definition GetTTL_getOperator : ReadOperator := fun node =>
  r <- call (Backend_Get node (GetTTLRequest.Key request)) ;;
  Return (bytes_value (fst r), snd r).

Definition GetTTL_setOperator (rawValue : Value) (ttl : time.Duration)
    : WriteOperator := fun node =>
  data <- lift (as_bytes rawValue) ;;
  call (Backend_Set node (GetTTLRequest.Key request) data ttl).

Definition GetTTL_setRollbackOperator : RollbackOperator :=
  fun rollbackArgs =>
  err <- call (engine_Write (Nodes rollbackArgs) 0 GetTTL_deleteOperator
                 GetTTL_deleteRollbackOperator OperationModeConcurrent) ;;
  logIfError err "unexpected error during SET rollback".

Definition GetTTL_repairValue (args : RepairArgs) (ttl : time.Duration)
    : Prog unit :=
  r <- call (engine_Read (Winners args) (majority (len (Winners args)))
               GetTTL_getOperator None byteComparer
               VotingModeSkipVoteOnNotFound) ;;
  let (rawValue, err) := r : Value * option error in
  match err with
  | Some e => logError e "unexpected error during read repair"
  | None =>
      err <- call (engine_Write (Losers args) 0
                     (GetTTL_setOperator rawValue ttl)
                     GetTTL_setRollbackOperator
                     OperationModeConcurrent) ;;
      logIfError err "unexpected error during read repair"
  end.

Definition GetTTL_repairOperator : RepairOperator := fun args =>
  if is_ErrNotFound (Err args) then
    err <- call (engine_Write (Losers args) 0 GetTTL_deleteOperator
                   GetTTL_deleteRollbackOperator OperationModeConcurrent) ;;
    logIfError err "unexpected error during read repair"
  else
    if negb (is_nil (Value_ args)) then
      ttl <- lift (duration_of (Value_ args)) ;;
      if (ttl =? 0)%Z then
        err <- call (engine_Write (Losers args) 0 GetTTL_deleteOperator
                       GetTTL_deleteRollbackOperator
                       OperationModeConcurrent) ;;
        logIfError err "unexpected error during read repair"
      else GetTTL_repairValue args ttl
    else GetTTL_repairValue args 0%Z.

Definition GetTTL : Prog (option GetTTLResponse.t * option error) :=
  r <- performRead (GetTTLRequest.Key request)
         (GetTTLRequest.Options request)
         GetTTL_readOperator GetTTL_repairOperator durationComparer ;;
  let (rawResult, err) := r : Value * option error in
  match err with
  | Some e => Return (None, convertErrorToGRPC (Some e))
  | None =>
      if is_nil rawResult then Return (Some (GetTTLResponse.mk None), None)
      else
        p <- lift (as_duration_ptr rawResult) ;;
        Return (Some (GetTTLResponse.mk p), None)
  end.
End GetTTL.

(** *** Close *)
Definition Close : Prog (option error) :=
  lastErr <- call cluster_Close ;;
  err <- call engine_Close ;;
  match err with
  | Some e =>
      logIfError lastErr "unexpected error while closing core service" ;;;
      Return (Some e)
  | None => Return lastErr
  end.

End Service.

(** ** serve.go: building the service from the configuration *)

(** The fields of the configuration that the functions below read. *)
Module Config.
Record t : Type := mk {
  DefaultReadConsistency : string;
  DefaultWriteConsistency : string;
  RedisListenPort : Z;
  RedisConnectionTimeout : Z
}.
End Config.

(** What [makeRedisServerOrPanic] hands to [redisTransport.New]. *)
Module RedisServer.
Record t : Type := mk {
  svc : coreService;
  port : Z;
  connectionTimeout : time.Duration;
  readConsistency : ConsistencyLevel;
  writeConsistency : ConsistencyLevel
}.
End RedisServer.

Section Serve.
(** [strings.ToLower] of the Go standard library. *)
Variable strings_ToLower : string -> string.

(** [None] stands for the panic raised by [log.Panicf]. *)
Definition convertConsistencyOrPanic (consistency : string)
    : option ConsistencyLevel :=
  let lowered := strings_ToLower consistency in
  if String.eqb lowered "1" then Some ConsistencyLevel_ONE
  else if String.eqb lowered "one" then Some ConsistencyLevel_ONE
  else if String.eqb lowered "all" then Some ConsistencyLevel_ALL
  else if String.eqb lowered "majority" then Some ConsistencyLevel_MAJORITY
  else None.

Definition getService (config : Config.t) : option coreService :=
  let options : list Option := [] in
  match
    (if negb (String.eqb (Config.DefaultReadConsistency config) "") then
       match convertConsistencyOrPanic (Config.DefaultReadConsistency config)
       with
       | Some c => Some (options ++ [WithDefaultReadConsistency c])
       | None => None
       end
     else Some options)
  with
  | None => None
  | Some options =>
      match
        (if negb (String.eqb (Config.DefaultWriteConsistency config) "") then
           match
             convertConsistencyOrPanic (Config.DefaultWriteConsistency config)
           with
           | Some c => Some (options ++ [WithDefaultWriteConsistency c])
           | None => None
           end
         else Some options)
      with
      | None => None
      | Some options => Some (New options)
      end
  end.

Definition makeRedisServerOrPanic (svc : coreService) (config : Config.t)
    : option RedisServer.t :=
  let readConsistency := ConsistencyLevel_MAJORITY in
  let writeConsistency := ConsistencyLevel_MAJORITY in
  match
    (if negb (String.eqb (Config.DefaultReadConsistency config) "") then
       convertConsistencyOrPanic (Config.DefaultReadConsistency config)
     else Some readConsistency)
  with
  | None => None
  | Some readConsistency =>
      match
        (if negb (String.eqb (Config.DefaultWriteConsistency config) "") then
           convertConsistencyOrPanic (Config.DefaultWriteConsistency config)
         else Some writeConsistency)
      with
      | None => None
      | Some writeConsistency =>
          Some (RedisServer.mk svc (Config.RedisListenPort config)
                  (int64_wrap
                     (Config.RedisConnectionTimeout config * time.Millisecond))
                  readConsistency writeConsistency)
      end
  end.
End Serve.

(** Lower-casing of the ASCII letters, which is what [strings.ToLower]
    does on a string of ASCII bytes. *)
Definition ascii_lower (c : Ascii.ascii) : Ascii.ascii :=
  let n := Ascii.nat_of_ascii c in
  if (65 <=? n)%nat && (n <=? 90)%nat then Ascii.ascii_of_nat (n + 32) else c.

Fixpoint ascii_ToLower (s : string) : string :=
  match s with
  | EmptyString => EmptyString
  | String c s' => String (ascii_lower c) (ascii_ToLower s')
  end.

Definition read_at_ONE : Config.t := Config.mk "One" "" 6380 100.

(** ** Slices over backing arrays

    [sortNodes] copies its argument before sorting.  To state what it
    leaves untouched, slices are also modelled the way Go lays them out:
    a window into a backing array that lives in a store and is shared by
    every slice cut from it. *)
Definition loc : Type := nat.

Record slice : Type := mkSlice {
  array : option loc;
  offset : nat;
  slice_len : nat;
  slice_cap : nat
}.

(** [var result []keyvaluestore.Backend] *)
Definition nil_slice : slice := mkSlice None 0 0 0.

Abbreviation store := (gmap loc (list Backend)).

Definition elements (h : store) (sl : slice) : list Backend :=
  match array sl with
  | Some l =>
      match h !! l with
      | Some arr => take (slice_len sl) (drop (offset sl) arr)
      | None => []
      end
  | None => []
  end.

(** [append(sl, xs...)]: when the capacity suffices the elements are
    written into the backing array of [sl]; otherwise a new array is
    allocated (its capacity is at least the new length; the exact
    rounding of the runtime plays no role here). *)
Definition append (sl : slice) (xs : list Backend) (h : store)
    : slice * store :=
  let n := length xs in
  if decide (slice_len sl + n <= slice_cap sl) then
    match array sl with
    | Some l =>
        match h !! l with
        | Some arr =>
            let at_ := offset sl + slice_len sl in
            (mkSlice (Some l) (offset sl) (slice_len sl + n) (slice_cap sl),
             <[l := take at_ arr ++ xs ++ drop (at_ + n) arr]> h)
        | None => (sl, h)
        end
    | None => (sl, h)
    end
  else
    let l := fresh (dom h) in
    (mkSlice (Some l) 0 (slice_len sl + n) (slice_len sl + n),
     <[l := elements h sl ++ xs]> h).

Section SlicesInStore.
Context {sorter : SliceSorter}.

(** [sort.Slice(sl, less)] rearranges the window of [sl] in its array. *)
Definition sort_Slice_in_place (sl : slice)
    (less : Backend -> Backend -> bool) (h : store) : store :=
  match array sl with
  | Some l =>
      match h !! l with
      | Some arr =>
          <[l := take (offset sl) arr
                 ++ sort_Slice less (take (slice_len sl) (drop (offset sl) arr))
                 ++ drop (offset sl + slice_len sl) arr]> h
      | None => h
      end
  | None => h
  end.

(** [sortNodes] on slices in a store. *)
Definition sortNodes_in_store (nodes : slice) (h : store) : slice * store :=
  let result := nil_slice in
  let (result, h) := append result (elements h nodes) h in
  let h :=
    sort_Slice_in_place result
      (fun a b : Backend => String.ltb (Address a) (Address b)) h in
  (result, h).
End SlicesInStore.

(** ** A sorter that meets the contract of [sort.Slice] *)

Fixpoint insert_by {A : Type} (less : A -> A -> bool) (x : A) (l : list A)
    : list A :=
  match l with
  | [] => [x]
  | y :: l' => if less x y then x :: l else y :: insert_by less x l'
  end.

Definition insertion_sort {A : Type} (less : A -> A -> bool) (l : list A)
    : list A :=
  fold_right (insert_by less) [] l.

(** ** Scripted collaborators

    A concrete environment for examples: the cluster, the engine's
    writes and the two [Close] methods answer as configured, and the
    engine's reads are answered from a queue. *)
Record Script : Type := mkScript {
  on_cluster_Read : ReadClusterView * option error;
  on_cluster_Write : WriteClusterView * option error;
  on_cluster_FlushDB : WriteClusterView * option error;
  on_cluster_Close : option error;
  on_engine_Write : option error;
  on_engine_Close : option error
}.

Definition scripted_answer (sc : Script) (X : Type) (c : Call X)
    (w : list (Value * option error)) : X * list (Value * option error) :=
  match c in Call X return X * list (Value * option error) with
  | cluster_Read _ _ => (on_cluster_Read sc, w)
  | cluster_Write _ _ => (on_cluster_Write sc, w)
  | cluster_FlushDB => (on_cluster_FlushDB sc, w)
  | cluster_Close => (on_cluster_Close sc, w)
  | engine_Read _ _ _ _ _ _ =>
      match w with
      | r :: w' => (r, w')
      | [] => ((nil_value, Some ErrConsistency), [])
      end
  | engine_Write _ _ _ _ _ => (on_engine_Write sc, w)
  | engine_Close => (on_engine_Close sc, w)
  | logrus_Error _ _ => (tt, w)
  end.

Definition scripted (sc : Script) : Env Call :=
  {| world := list (Value * option error); answer := scripted_answer sc |}.

Definition node1 : Backend := mkBackend 1 "c".
Definition node2 : Backend := mkBackend 2 "a".
Definition node3 : Backend := mkBackend 3 "b".

(** Three backends, every call succeeds. *)
Definition all_is_well : Script := {|
  on_cluster_Read :=
    (mkReadClusterView [node1; node2; node3] 3 VotingModeVoteOnNotFound, None);
  on_cluster_Write := (mkWriteClusterView [node1; node2; node3] 3, None);
  on_cluster_FlushDB := (mkWriteClusterView [node1; node2; node3] 3, None);
  on_cluster_Close := None;
  on_engine_Write := None;
  on_engine_Close := None
|}.

(** ** Observing runs *)

(** The table of surface codes, as the specification gives it. *)
Definition edge_code (e : error) : Code :=
  match e with
  | ErrNotFound => codes_NotFound
  | ErrConsistency => codes_Unavailable
  | context_Canceled => codes_Canceled
  | context_DeadlineExceeded => codes_DeadlineExceeded
  | _ => codes_Internal
  end.

Definition rmap {A B : Type} (f : A -> B) (r : Result A) : Result B :=
  match r with
  | Done a => Done (f a)
  | Fault p => Fault p
  end.

(** The consistency levels the cluster was asked for during a run. *)
Definition cluster_level (e : Event Call) : list ConsistencyLevel :=
  match e with
  | Ev c _ =>
      match c with
      | cluster_Read _ level => [level]
      | cluster_Write _ level => [level]
      | _ => []
      end
  end.

Definition cluster_levels (t : list (Event Call)) : list ConsistencyLevel :=
  flat_map cluster_level t.

(** An error that tells the client the key was not found. *)
Definition tells_NotFound (err : option error) : bool :=
  match err with
  | Some ErrNotFound => true
  | Some (status_Error codes_NotFound _) => true
  | _ => false
  end.

(** The contract of the collaborators on the write side: neither the
    cluster, when resolving a write or a flush, nor the engine's [Write]
    answers [ErrNotFound]. *)
Definition write_side_without_NotFound (env : Env Call) : Prop :=
  (forall key level w,
     is_ErrNotFound (snd (fst (answer env (cluster_Write key level) w)))
     = false) /\
  (forall w,
     is_ErrNotFound (snd (fst (answer env cluster_FlushDB w))) = false) /\
  (forall nodes ack operator rollback mode w,
     is_ErrNotFound
       (fst (answer env (engine_Write nodes ack operator rollback mode) w))
     = false).

(** The writes handed to the engine during a run, in order. *)
Definition engine_write (e : Event Call) : list (Call (option error)) :=
  match e with
  | Ev c _ =>
      match c in Call X return list (Call (option error)) with
      | engine_Write nodes ack operator rollback mode =>
          [engine_Write nodes ack operator rollback mode]
      | _ => []
      end
  end.

Definition engine_writes (t : list (Event Call)) : list (Call (option error)) :=
  flat_map engine_write t.

(** [c] is a best-effort concurrent write that performs
    [Set(key, value, ttl)] on each of [nodes]. *)
Definition sets_on (nodes : list Backend) (key : string) (value : list byte)
    (ttl : time.Duration) (c : Call (option error)) : Prop :=
  match c in Call X return Prop with
  | engine_Write nodes' ack operator _ mode =>
      nodes' = nodes /\ ack = 0%Z /\ mode = OperationModeConcurrent /\
      forall node, operator node = call (Backend_Set node key value ttl)
  | _ => False
  end.

Definition winners_agree_on : RepairArgs := {|
  Value_ := bytes_value [x56];
  Err := None;
  Winners := [node1; node2];
  Losers := [node3]
|}.

Definition get_mykey : GetRequest.t :=
  GetRequest.mk "mykey" (ReadOptions.mk ConsistencyLevel_ALL).

(** The modes of the writes handed to the engine during a run. *)
Definition write_mode (e : Event Call) : list OperationMode :=
  match e with
  | Ev c _ =>
      match c with
      | engine_Write _ _ _ _ mode => [mode]
      | _ => []
      end
  end.

Definition write_modes (t : list (Event Call)) : list OperationMode :=
  flat_map write_mode t.

Definition all_concurrent {R : Type} (env : Env Call) (p : Prog R)
    (w : world env) : Prop :=
  Forall (fun mode => mode = OperationModeConcurrent)
    (write_modes (trace_of env p w)).

(** Ascending order of [Address()]. *)
Definition by_Address : list Backend -> Prop :=
  StronglySorted
    (fun a b : Backend => String.leb (Address a) (Address b) = true).

Definition lock_mykey : LockRequest.t :=
  LockRequest.mk "mykey" [x2d] time.Second
    (WriteOptions.mk ConsistencyLevel_ALL).

Definition both_closes_fail : Script := {|
  on_cluster_Read := on_cluster_Read all_is_well;
  on_cluster_Write := on_cluster_Write all_is_well;
  on_cluster_FlushDB := on_cluster_FlushDB all_is_well;
  on_cluster_Close := Some (errors_New "cluster is gone");
  on_engine_Close := Some (errors_New "engine is gone");
  on_engine_Write := None
|}.

Definition expire_mykey : ExpireRequest.t :=
  ExpireRequest.mk "mykey" time.Minute (WriteOptions.mk ConsistencyLevel_ALL).

Definition exists_mykey : ExistsRequest.t :=
  ExistsRequest.mk "mykey" (ReadOptions.mk ConsistencyLevel_ALL).

(** What the engine reports to the repair of Expire and of Exists when
    two backends answered [true] and the third did not. *)
Definition winners_say_true : RepairArgs := {|
  Value_ := bool_value true;
  Err := None;
  Winners := [node1; node2];
  Losers := [node3]
|}.

(** ** Further observations on runs *)

(** The reads handed to the engine during a run, in order. *)
Definition engine_read (e : Event Call) : list (Call (Value * option error)) :=
  match e with
  | Ev c _ =>
      match c in Call X return list (Call (Value * option error)) with
      | engine_Read nodes votes operator repair cmp mode =>
          [engine_Read nodes votes operator repair cmp mode]
      | _ => []
      end
  end.

Definition engine_reads (t : list (Event Call))
    : list (Call (Value * option error)) :=
  flat_map engine_read t.

(** What was logged during a run. *)
Definition log_entry (e : Event Call) : list (error * string) :=
  match e with
  | Ev c _ =>
      match c with
      | logrus_Error err message => [(err, message)]
      | _ => []
      end
  end.

Definition logged (t : list (Event Call)) : list (error * string) :=
  flat_map log_entry t.

(** [c] is a best-effort concurrent write that performs [Delete(key)] on
    each of [nodes] and has nothing to roll back. *)
Definition deletes_on (nodes : list Backend) (key : string)
    (c : Call (option error)) : Prop :=
  match c in Call X return Prop with
  | engine_Write nodes' ack operator rollback mode =>
      nodes' = nodes /\ ack = 0%Z /\ mode = OperationModeConcurrent /\
      (forall node, operator node = call (Backend_Delete node key)) /\
      (forall args, rollback args = Return tt)
  | _ => False
  end.

(** [c] is a best-effort concurrent write that performs [Unlock(key)] on
    each of [nodes] and has nothing to roll back. *)
Definition unlocks_on (nodes : list Backend) (key : string)
    (c : Call (option error)) : Prop :=
  match c in Call X return Prop with
  | engine_Write nodes' ack operator rollback mode =>
      nodes' = nodes /\ ack = 0%Z /\ mode = OperationModeConcurrent /\
      (forall node, operator node = call (Backend_Unlock node key)) /\
      (forall args, rollback args = Return tt)
  | _ => False
  end.

(** [c] reads from [nodes] at their majority, leaving backends without
    the key out of the vote, and triggers no repair of its own. *)
Definition reads_winners (nodes : list Backend) (c : Call (Value * option error))
    : Prop :=
  match c in Call X return Prop with
  | engine_Read nodes' votes _ repair _ mode =>
      nodes' = nodes /\ votes = majority (len nodes) /\ repair = None /\
      mode = VotingModeSkipVoteOnNotFound
  | _ => False
  end.

(** How a repair brings the losers in line once the time to live [ttl]
    that the winners agree on is known, [w1] being the state in which the
    value is read from the winners: a zero [ttl] deletes the key on the
    losers; otherwise the value read from the winners is set on the
    losers with that [ttl], and a failed read of the value is logged and
    ends the repair without a write. *)
Definition repaired_from_TTL (env : Env Call) (w w1 : world env)
    (repair : Prog unit) (value_read : Call (Value * option error))
    (losers : list Backend) (key : string) (ttl : time.Duration) : Prop :=
  (ttl = 0%Z ->
   result_of env repair w = Done tt /\
   exists c,
     engine_writes (trace_of env repair w) = [c] /\
     deletes_on losers key c) /\
  (ttl <> 0%Z ->
   forall data w2,
     answer env value_read w1 = ((bytes_value data, None), w2) ->
     result_of env repair w = Done tt /\
     exists c,
       engine_writes (trace_of env repair w) = [c] /\
       sets_on losers key data ttl c) /\
  (ttl <> 0%Z ->
   forall v e w2,
     answer env value_read w1 = ((v, Some e), w2) ->
     result_of env repair w = Done tt /\
     engine_writes (trace_of env repair w) = [] /\
     logged (trace_of env repair w)
     = [(e, "unexpected error during read repair"%string)]).

(** The lists of backends the engine was asked to write to during a run,
    each in the order of dispatch. *)
Definition write_target (e : Event Call) : list (list Backend) :=
  match e with
  | Ev c _ =>
      match c with
      | engine_Write nodes _ _ _ _ => [nodes]
      | _ => []
      end
  end.

Definition write_targets (t : list (Event Call)) : list (list Backend) :=
  flat_map write_target t.

Definition getttl_mykey : GetTTLRequest.t :=
  GetTTLRequest.mk "mykey" (ReadOptions.mk ConsistencyLevel_ALL).

Definition set_mykey : SetRequest.t :=
  SetRequest.mk "mykey" [x56] time.Minute
    (WriteOptions.mk ConsistencyLevel_DEFAULT).

(** What the engine reports to a repair when the winning outcome is
    [ErrNotFound] and one backend still holds the key. *)
Definition winners_say_NotFound : RepairArgs := {|
  Value_ := nil_value;
  Err := Some ErrNotFound;
  Winners := [node1; node2];
  Losers := [node3]
|}.



(** The cluster cannot resolve a view. *)
Definition cluster_is_short : Script := {|
  on_cluster_Read :=
    (mkReadClusterView [] 0 VotingModeVoteOnNotFound, Some ErrConsistency);
  on_cluster_Write := (mkWriteClusterView [] 0, Some ErrConsistency);
  on_cluster_FlushDB := (mkWriteClusterView [] 0, Some ErrConsistency);
  on_cluster_Close := None;
  on_engine_Write := None;
  on_engine_Close := None
|}.

(** * Properties *)

(** ** The contract of [sort.Slice] is met by insertion sort *)

Lemma insert_by_Permutation {A : Type} (less : A -> A -> bool) x (l : list A) :
  Permutation (x :: l) (insert_by less x l).
Proof.
  induction l as [|y l IH]; simpl.
  - reflexivity.
  - destruct (less x y).
    + reflexivity.
    + rewrite perm_swap. now apply perm_skip.
Qed.

Lemma insertion_sort_Permutation {A : Type} (less : A -> A -> bool) (l : list A) :
  Permutation l (insertion_sort less l).
Proof.
  induction l as [|x l IH]; simpl.
  - reflexivity.
  - etransitivity; [apply perm_skip, IH | apply insert_by_Permutation].
Qed.

Lemma insert_by_ascending {A : Type} (less : A -> A -> bool) x (l : list A) :
  strict_weak less -> ascending less l -> ascending less (insert_by less x l).
Proof.
  intros [Hasym Hneg]. unfold ascending.
  induction 1 as [|y l Hl IH Hy]; simpl.
  - constructor; constructor.
  - destruct (less x y) eqn:Hxy.
    + constructor.
      * now constructor.
      * constructor.
        -- now apply Hasym.
        -- eapply Forall_impl; [exact Hy|].
           intros z Hz. simpl in *. eapply Hneg; [apply Hasym, Hxy | exact Hz].
    + constructor; [exact IH|].
      rewrite <- (insert_by_Permutation less x l).
      now constructor.
Qed.

Lemma insertion_sort_ascending {A : Type} (less : A -> A -> bool) (l : list A) :
  strict_weak less -> ascending less (insertion_sort less l).
Proof.
  intros Hless. induction l as [|x l IH]; simpl.
  - constructor.
  - now apply insert_by_ascending.
Qed.

#[export] Instance insertion_sorter : SliceSorter := {|
  sort_Slice := @insertion_sort;
  sort_Slice_Permutation := @insertion_sort_Permutation;
  sort_Slice_ascending := @insertion_sort_ascending
|}.

(** ** Running programs *)

Lemma exec_bind {E : Type -> Type} {A B : Type} (env : Env E)
    (p : Free E A) (f : A -> Free E B) (w : world env) :
  exec env (bind p f) w =
  match exec env p w with
  | (Done a, t, w1) =>
      let '(o, t', w2) := exec env (f a) w1 in (o, t ++ t', w2)
  | (Fault e, t, w1) => (Fault e, t, w1)
  end.
Proof.
  revert w. induction p as [r|e|X c k IH]; intros w; simpl.
  - now destruct (exec env (f r) w) as [[o t] w2].
  - reflexivity.
  - destruct (answer env c w) as [x w1]. rewrite IH.
    destruct (exec env (k x) w1) as [[[a|e] t] w2]; [|reflexivity].
    now destruct (exec env (f a) w2) as [[o t'] w3].
Qed.

Lemma result_of_bind {E : Type -> Type} {A B : Type} (env : Env E)
    (p : Free E A) (f : A -> Free E B) (w : world env) :
  result_of env (bind p f) w =
  match result_of env p w with
  | Done a => result_of env (f a) (world_after env p w)
  | Fault e => Fault e
  end.
Proof.
  unfold result_of, world_after. rewrite exec_bind.
  destruct (exec env p w) as [[[a|e] t] w1]; [|reflexivity]. simpl.
  now destruct (exec env (f a) w1) as [[o t'] w2].
Qed.

Lemma trace_of_bind {E : Type -> Type} {A B : Type} (env : Env E)
    (p : Free E A) (f : A -> Free E B) (w : world env) :
  trace_of env (bind p f) w =
  match result_of env p w with
  | Done a => trace_of env p w ++ trace_of env (f a) (world_after env p w)
  | Fault e => trace_of env p w
  end.
Proof.
  unfold result_of, trace_of, world_after. rewrite exec_bind.
  destruct (exec env p w) as [[[a|e] t] w1]; [|reflexivity]. simpl.
  now destruct (exec env (f a) w1) as [[o t'] w2].
Qed.

(** One step of a run: name the answer of the environment to the next call. *)
Ltac answer_next :=
  match goal with
  | |- context [answer ?env ?c ?w] =>
      let x := fresh "x" in
      let w' := fresh "w" in
      let Hx := fresh "Hanswer" in
      destruct (answer env c w) as [x w'] eqn:Hx; simpl
  end.

(** ** String order *)

Lemma String_compare_le_trans (a b c : string) :
  String.compare a b <> Gt -> String.compare b c <> Gt ->
  String.compare a c <> Gt.
Proof.
  revert b c. induction a as [|x a IH]; intros [|y b] [|z c]; simpl;
    try congruence.
  unfold Ascii.compare.
  destruct (N.compare_spec (Ascii.N_of_ascii x) (Ascii.N_of_ascii y)) as [Hxy|Hxy|Hxy];
    destruct (N.compare_spec (Ascii.N_of_ascii y) (Ascii.N_of_ascii z)) as [Hyz|Hyz|Hyz];
    try congruence;
    destruct (N.compare_spec (Ascii.N_of_ascii x) (Ascii.N_of_ascii z)) as [Hxz|Hxz|Hxz];
    try congruence; try lia.
  apply IH.
Qed.

Lemma Address_less_strict_weak :
  strict_weak (fun a b : Backend => String.ltb (Address a) (Address b)).
Proof.
  unfold String.ltb. split.
  - intros a b. rewrite (String.compare_antisym (Address b) (Address a)).
    now destruct (String.compare (Address a) (Address b)).
  - intros a b c Hba Hcb.
    pose proof (@String_compare_le_trans (Address a) (Address b) (Address c)) as Ht.
    rewrite (String.compare_antisym (Address a) (Address b)) in Ht.
    rewrite (String.compare_antisym (Address b) (Address c)) in Ht.
    rewrite (String.compare_antisym (Address a) (Address c)) in Ht.
    destruct (String.compare (Address b) (Address a));
      destruct (String.compare (Address c) (Address b));
      destruct (String.compare (Address c) (Address a));
      simpl in *; try congruence; exfalso; apply Ht; congruence.
Qed.

(** ** The duration comparer *)








(** ** Error conversion at the transport edge *)

Lemma convertErrorToGRPC_edge_code (e : error) :
  exists d, convertErrorToGRPC (Some e) = Some (status_Error (edge_code e) d).
Proof. destruct e; simpl; eauto. Qed.

Lemma result_of_bind_Return {E : Type -> Type} {A B : Type} (env : Env E)
    (p : Free E A) (f : A -> B) (w : world env) :
  result_of env (bind p (fun a => Return (f a))) w = rmap f (result_of env p w).
Proof. rewrite result_of_bind. now destruct (result_of env p w). Qed.

Section ErrorsSurfaced.
Context {sorter : SliceSorter}.
Variable s : coreService.
Variable env : Env Call.
Variable w : world env.

Lemma write_operations_convert :
  (forall rq,
     result_of env (Set_ s rq) w =
     rmap convertErrorToGRPC
       (result_of env
          (performWrite s (SetRequest.Key rq) (SetRequest.Options rq)
             (Set_writeOperator rq) (Set_rollbackOperator rq)
             OperationModeConcurrent) w)) /\
  (forall rq,
     result_of env (Delete s rq) w =
     rmap convertErrorToGRPC
       (result_of env
          (performWrite s (DeleteRequest.Key rq) (DeleteRequest.Options rq)
             (Delete_writeOperator rq) Delete_rollbackOperator
             OperationModeConcurrent) w)) /\
  (forall rq,
     result_of env (Lock s rq) w =
     rmap convertErrorToGRPC
       (result_of env
          (performWrite s (LockRequest.Key rq) (LockRequest.Options rq)
             (Lock_writeOperator rq) (Lock_rollbackOperator rq)
             OperationModeSequential) w)) /\
  (forall rq,
     result_of env (Unlock s rq) w =
     rmap convertErrorToGRPC
       (result_of env
          (performWrite s (UnlockRequest.Key rq) (UnlockRequest.Options rq)
             (Unlock_writeOperator rq) Unlock_rollbackOperator
             OperationModeConcurrent) w)) /\
  result_of env FlushDB w =
  rmap convertErrorToGRPC (result_of env performFlushDb w).
Proof.
  repeat split; intros; apply result_of_bind_Return.
Qed.

Lemma read_operations_convert (v : Value) (e : error) :
  (forall rq,
     result_of env
       (performRead s (GetRequest.Key rq) (GetRequest.Options rq)
          (Get_readOperator rq) (Get_repairOperator rq) byteComparer) w
     = Done (v, Some e) ->
     result_of env (Get s rq) w = Done (None, convertErrorToGRPC (Some e))) /\
  (forall rq,
     result_of env
       (performRead s (GetTTLRequest.Key rq) (GetTTLRequest.Options rq)
          (GetTTL_readOperator rq) (GetTTL_repairOperator rq)
          durationComparer) w
     = Done (v, Some e) ->
     result_of env (GetTTL s rq) w
     = Done (None, convertErrorToGRPC (Some e))) /\
  (forall rq,
     e <> ErrNotFound ->
     result_of env
       (performRead s (ExistsRequest.Key rq) (ExistsRequest.Options rq)
          (Exists_readOperator rq) (Exists_repairOperator rq)
          booleanComparer) w
     = Done (v, Some e) ->
     result_of env (Exists s rq) w
     = Done (None, convertErrorToGRPC (Some e))) /\
  (forall rq,
     e <> ErrNotFound ->
     result_of env
       (performRead s (ExpireRequest.Key rq)
          (ReadOptions.mk
             (WriteOptions.Consistency (ExpireRequest.Options rq)))
          (Expire_readOperator rq) (Expire_repairOperator rq)
          booleanComparer) w
     = Done (v, Some e) ->
     result_of env (Expire s rq) w
     = Done (None, convertErrorToGRPC (Some e))).
Proof.
  repeat split; intros rq; intros;
    (unfold Get, GetTTL, Exists, Expire); rewrite result_of_bind;
    match goal with H : result_of _ _ _ = _ |- _ => rewrite H end;
    try reflexivity; simpl; destruct e; try reflexivity; congruence.
Qed.
End ErrorsSurfaced.

(** C6.  A nil error stays nil.  A non-nil error becomes a status error
    whose code is the one of the table: NotFound for [ErrNotFound],
    Unavailable for [ErrConsistency], Canceled and DeadlineExceeded for
    the two context errors, Internal for everything else.  Every
    operation hands the error of its underlying write or read to this
    conversion before returning it (Exists and Expire do so for every
    error other than [ErrNotFound]). *)
Theorem convertErrorToGRPC_table :
  convertErrorToGRPC None = None /\
  (forall e : error, exists d,
     convertErrorToGRPC (Some e) = Some (status_Error (edge_code e) d)) /\
  (forall (sorter : SliceSorter) (s : coreService) (env : Env Call)
          (w : world env),
     (forall rq,
        result_of env (Set_ s rq) w =
        rmap convertErrorToGRPC
          (result_of env
             (performWrite s (SetRequest.Key rq) (SetRequest.Options rq)
                (Set_writeOperator rq) (Set_rollbackOperator rq)
                OperationModeConcurrent) w)) /\
     (forall rq,
        result_of env (Delete s rq) w =
        rmap convertErrorToGRPC
          (result_of env
             (performWrite s (DeleteRequest.Key rq) (DeleteRequest.Options rq)
                (Delete_writeOperator rq) Delete_rollbackOperator
                OperationModeConcurrent) w)) /\
     (forall rq,
        result_of env (Lock s rq) w =
        rmap convertErrorToGRPC
          (result_of env
             (performWrite s (LockRequest.Key rq) (LockRequest.Options rq)
                (Lock_writeOperator rq) (Lock_rollbackOperator rq)
                OperationModeSequential) w)) /\
     (forall rq,
        result_of env (Unlock s rq) w =
        rmap convertErrorToGRPC
          (result_of env
             (performWrite s (UnlockRequest.Key rq) (UnlockRequest.Options rq)
                (Unlock_writeOperator rq) Unlock_rollbackOperator
                OperationModeConcurrent) w)) /\
     result_of env FlushDB w =
     rmap convertErrorToGRPC (result_of env performFlushDb w)) /\
  (forall (s : coreService) (env : Env Call) (w : world env)
          (v : Value) (e : error),
     (forall rq,
        result_of env
          (performRead s (GetRequest.Key rq) (GetRequest.Options rq)
             (Get_readOperator rq) (Get_repairOperator rq) byteComparer) w
        = Done (v, Some e) ->
        result_of env (Get s rq) w
        = Done (None, convertErrorToGRPC (Some e))) /\
     (forall rq,
        result_of env
          (performRead s (GetTTLRequest.Key rq) (GetTTLRequest.Options rq)
             (GetTTL_readOperator rq) (GetTTL_repairOperator rq)
             durationComparer) w
        = Done (v, Some e) ->
        result_of env (GetTTL s rq) w
        = Done (None, convertErrorToGRPC (Some e))) /\
     (forall rq,
        e <> ErrNotFound ->
        result_of env
          (performRead s (ExistsRequest.Key rq) (ExistsRequest.Options rq)
             (Exists_readOperator rq) (Exists_repairOperator rq)
             booleanComparer) w
        = Done (v, Some e) ->
        result_of env (Exists s rq) w
        = Done (None, convertErrorToGRPC (Some e))) /\
     (forall rq,
        e <> ErrNotFound ->
        result_of env
          (performRead s (ExpireRequest.Key rq)
             (ReadOptions.mk
                (WriteOptions.Consistency (ExpireRequest.Options rq)))
             (Expire_readOperator rq) (Expire_repairOperator rq)
             booleanComparer) w
        = Done (v, Some e) ->
        result_of env (Expire s rq) w
        = Done (None, convertErrorToGRPC (Some e)))).
Proof.
  split; [reflexivity|].
  split; [exact convertErrorToGRPC_edge_code|].
  split.
  - intros sorter s env w. apply write_operations_convert.
  - intros s env w v e. apply read_operations_convert.
Qed.

Lemma convertErrorToGRPC_table_witness :
  result_of (scripted all_is_well)
    (Get (New []) (GetRequest.mk "mykey" (ReadOptions.mk ConsistencyLevel_ALL)))
    [(nil_value, Some context_DeadlineExceeded)]
  = Done (None, Some (status_Error codes_DeadlineExceeded context_Canceled)) /\
  result_of (scripted all_is_well)
    (Exists (New [])
       (ExistsRequest.mk "mykey" (ReadOptions.mk ConsistencyLevel_ALL)))
    [(nil_value, Some ErrConsistency)]
  = Done (None, Some (status_Error codes_Unavailable ErrConsistency)).
Proof.
  destruct convertErrorToGRPC_table as (_ & _ & _ & Hread).
  split.
  - destruct (Hread (New []) (scripted all_is_well)
                [(nil_value, Some context_DeadlineExceeded)]
                nil_value context_DeadlineExceeded) as (HGet & _).
    apply HGet. reflexivity.
  - destruct (Hread (New []) (scripted all_is_well)
                [(nil_value, Some ErrConsistency)]
                nil_value ErrConsistency) as (_ & _ & HExists & _).
    apply HExists; [discriminate | reflexivity].
Defined.

(** ** Consistency substitution *)

Lemma trace_of_bind_silent {E : Type -> Type} {A B : Type} (env : Env E)
    (p : Free E A) (f : A -> Free E B) (w : world env) :
  (forall a w', trace_of env (f a) w' = []) ->
  trace_of env (bind p f) w = trace_of env p w.
Proof.
  intros Hf. rewrite trace_of_bind.
  destruct (result_of env p w); [|reflexivity].
  rewrite Hf. apply app_nil_r.
Qed.

Lemma New_keeps_read_default (cs : list ConsistencyLevel) (s : coreService) :
  defaultReadConsistency
    (fold_left (fun result option => option result)
       (map WithDefaultWriteConsistency cs) s)
  = defaultReadConsistency s.
Proof.
  revert s. induction cs as [|c cs IH]; intros s; simpl; [reflexivity|].
  now rewrite IH.
Qed.

Lemma New_keeps_write_default (cs : list ConsistencyLevel) (s : coreService) :
  defaultWriteConsistency
    (fold_left (fun result option => option result)
       (map WithDefaultReadConsistency cs) s)
  = defaultWriteConsistency s.
Proof.
  revert s. induction cs as [|c cs IH]; intros s; simpl; [reflexivity|].
  now rewrite IH.
Qed.

Lemma New_last_option_wins (options : list Option) (c : ConsistencyLevel) :
  defaultReadConsistency (New (options ++ [WithDefaultReadConsistency c])) = c /\
  defaultWriteConsistency (New (options ++ [WithDefaultWriteConsistency c])) = c.
Proof. unfold New. now rewrite !fold_left_app. Qed.

Section Substitution.
Context {sorter : SliceSorter}.
Variable s : coreService.
Variable env : Env Call.

Lemma performWrite_cluster_levels key options operator rollback mode
    (w : world env) :
  cluster_levels
    (trace_of env (performWrite s key options operator rollback mode) w)
  = [writeConsistency s options].
Proof.
  unfold trace_of, performWrite. simpl.
  answer_next. destruct x as [view [e|]]; simpl; [reflexivity|].
  destruct mode; simpl; now answer_next.
Qed.

Lemma performRead_cluster_levels key options readOperator repairOperator
    comparer (w : world env) :
  cluster_levels
    (trace_of env
       (performRead s key options readOperator repairOperator comparer) w)
  = [readConsistency s options].
Proof.
  unfold trace_of, performRead. simpl.
  answer_next. destruct x as [view [e|]]; simpl; [reflexivity|].
  now answer_next.
Qed.

Lemma operations_ask_cluster (w : world env) :
  (forall rq, cluster_levels (trace_of env (Set_ s rq) w)
              = [writeConsistency s (SetRequest.Options rq)]) /\
  (forall rq, cluster_levels (trace_of env (Delete s rq) w)
              = [writeConsistency s (DeleteRequest.Options rq)]) /\
  (forall rq, cluster_levels (trace_of env (Lock s rq) w)
              = [writeConsistency s (LockRequest.Options rq)]) /\
  (forall rq, cluster_levels (trace_of env (Unlock s rq) w)
              = [writeConsistency s (UnlockRequest.Options rq)]) /\
  (forall rq, cluster_levels (trace_of env (Get s rq) w)
              = [readConsistency s (GetRequest.Options rq)]) /\
  (forall rq, cluster_levels (trace_of env (GetTTL s rq) w)
              = [readConsistency s (GetTTLRequest.Options rq)]) /\
  (forall rq, cluster_levels (trace_of env (Exists s rq) w)
              = [readConsistency s (ExistsRequest.Options rq)]) /\
  (forall rq, cluster_levels (trace_of env (Expire s rq) w)
              = [readConsistency s
                   (ReadOptions.mk
                      (WriteOptions.Consistency (ExpireRequest.Options rq)))]).
Proof.
  repeat split; intros rq;
    unfold Set_, Delete, Lock, Unlock, Get, GetTTL, Exists, Expire;
    (rewrite trace_of_bind_silent;
     [ first [apply performWrite_cluster_levels
             | apply performRead_cluster_levels]
     | ]);
    intros [v [e|]] w' || intros [e|] w'; try reflexivity.
  - now destruct v.
  - now destruct v.
  - now destruct e.
  - now destruct v.
  - now destruct e.
  - now destruct v.
Qed.
End Substitution.

(** C3.  Without options the service defaults are MAJORITY for reads and
    ALL for writes, an option sets its own default and leaves the other
    one alone.  A request at level DEFAULT is resolved to the service
    default, every other level is kept; and the level so obtained is the
    one, and the only one, each operation asks the cluster for: the
    default-write for Set, Delete, Lock and Unlock, the default-read for
    Get, GetTTL, Exists and Expire. *)
Theorem consistency_substitution :
  (defaultReadConsistency (New []) = ConsistencyLevel_MAJORITY /\
   defaultWriteConsistency (New []) = ConsistencyLevel_ALL) /\
  (forall cs,
     defaultReadConsistency (New (map WithDefaultWriteConsistency cs))
     = ConsistencyLevel_MAJORITY /\
     defaultWriteConsistency (New (map WithDefaultReadConsistency cs))
     = ConsistencyLevel_ALL) /\
  (forall options c,
     defaultReadConsistency (New (options ++ [WithDefaultReadConsistency c]))
     = c /\
     defaultWriteConsistency (New (options ++ [WithDefaultWriteConsistency c]))
     = c) /\
  (forall s c,
     writeConsistency s (WriteOptions.mk c) =
     match c with
     | ConsistencyLevel_DEFAULT => defaultWriteConsistency s
     | ConsistencyLevel_ONE => ConsistencyLevel_ONE
     | ConsistencyLevel_MAJORITY => ConsistencyLevel_MAJORITY
     | ConsistencyLevel_ALL => ConsistencyLevel_ALL
     end) /\
  (forall s c,
     readConsistency s (ReadOptions.mk c) =
     match c with
     | ConsistencyLevel_DEFAULT => defaultReadConsistency s
     | ConsistencyLevel_ONE => ConsistencyLevel_ONE
     | ConsistencyLevel_MAJORITY => ConsistencyLevel_MAJORITY
     | ConsistencyLevel_ALL => ConsistencyLevel_ALL
     end) /\
  (forall (sorter : SliceSorter) (s : coreService) (env : Env Call)
          (w : world env),
     (forall rq, cluster_levels (trace_of env (Set_ s rq) w)
                 = [writeConsistency s (SetRequest.Options rq)]) /\
     (forall rq, cluster_levels (trace_of env (Delete s rq) w)
                 = [writeConsistency s (DeleteRequest.Options rq)]) /\
     (forall rq, cluster_levels (trace_of env (Lock s rq) w)
                 = [writeConsistency s (LockRequest.Options rq)]) /\
     (forall rq, cluster_levels (trace_of env (Unlock s rq) w)
                 = [writeConsistency s (UnlockRequest.Options rq)]) /\
     (forall rq, cluster_levels (trace_of env (Get s rq) w)
                 = [readConsistency s (GetRequest.Options rq)]) /\
     (forall rq, cluster_levels (trace_of env (GetTTL s rq) w)
                 = [readConsistency s (GetTTLRequest.Options rq)]) /\
     (forall rq, cluster_levels (trace_of env (Exists s rq) w)
                 = [readConsistency s (ExistsRequest.Options rq)]) /\
     (forall rq, cluster_levels (trace_of env (Expire s rq) w)
                 = [readConsistency s
                      (ReadOptions.mk
                         (WriteOptions.Consistency
                            (ExpireRequest.Options rq)))])).
Proof.
  split; [now split|].
  split.
  { intros cs. unfold New.
    now rewrite New_keeps_read_default, New_keeps_write_default. }
  split; [exact New_last_option_wins|].
  split; [now intros s []|].
  split; [now intros s []|].
  intros sorter s env w. apply operations_ask_cluster.
Qed.

(** ** Close *)

(** C5, as amended.  The cluster is closed first, then the engine.  When
    the engine's [Close] fails its error is the one returned, and the
    cluster's error, if there is one, is only logged; when the engine's
    [Close] succeeds the cluster's outcome is returned.  So a single
    failure is returned whichever side it comes from, and of two failures
    the last one (the engine's) is returned. *)
Theorem Close_returns_last_error (env : Env Call) (w : world env) :
  exists (clusterErr engineErr : option error) (logged : list (Event Call)),
    trace_of env Close w =
      Ev cluster_Close clusterErr :: Ev engine_Close engineErr :: logged /\
    result_of env Close w =
      Done (match engineErr with
            | Some e => Some e
            | None => clusterErr
            end) /\
    logged =
      match engineErr, clusterErr with
      | Some _, Some c =>
          [Ev (logrus_Error c "unexpected error while closing core service") tt]
      | _, _ => []
      end.
Proof.
  unfold trace_of, result_of, Close. simpl.
  destruct (answer env cluster_Close w) as [clusterErr w1].
  destruct (answer env engine_Close w1) as [engineErr w2].
  exists clusterErr, engineErr.
  destruct engineErr as [e|]; simpl.
  - destruct clusterErr as [c|]; simpl.
    + destruct (answer env (logrus_Error c _) w2) as [[] w3]. simpl. eauto.
    + eauto.
  - eauto.
Qed.

(** C5, as stated, fails when both [Close] calls fail: the error returned
    is the engine's, not the cluster's, and the one logged is the
    cluster's. *)
Lemma Close_both_fail_returns_engine_error :
  exec (scripted both_closes_fail) Close [] =
    (Done (Some (errors_New "engine is gone")),
     [Ev cluster_Close (Some (errors_New "cluster is gone"));
      Ev engine_Close (Some (errors_New "engine is gone"));
      Ev (logrus_Error (errors_New "cluster is gone")
            "unexpected error while closing core service") tt],
     []) /\
  result_of (scripted both_closes_fail) Close []
    <> Done (Some (errors_New "cluster is gone")).
Proof. split; [reflexivity | discriminate]. Qed.

(** ** NotFound on the read operations *)

Lemma convertErrorToGRPC_tells_NotFound (err : option error) :
  tells_NotFound (convertErrorToGRPC err) = is_ErrNotFound err.
Proof. destruct err as [[]|]; reflexivity. Qed.

Section NotFound.
Context {sorter : SliceSorter}.
Variable s : coreService.
Variable env : Env Call.

Lemma performWrite_without_NotFound key options operator rollback mode
    (w : world env) (err : option error) :
  write_side_without_NotFound env ->
  result_of env (performWrite s key options operator rollback mode) w
  = Done err ->
  is_ErrNotFound err = false.
Proof.
  intros (Hcluster & _ & Hengine). unfold result_of, performWrite. simpl.
  pose proof (Hcluster key (writeConsistency s options) w) as Hc.
  destruct (answer env (cluster_Write key (writeConsistency s options)) w)
    as [[view [e|]] w1]; simpl in *.
  - intros [= <-]. exact Hc.
  - match goal with
    | |- context [answer env ?c w1] =>
        match c with
        | engine_Write ?n ?a ?o ?r ?m =>
            pose proof (Hengine n a o r m w1) as He;
            destruct (answer env c w1) as [x w2]
        end
    end.
    simpl in *. intros [= <-]. exact He.
Qed.

Lemma performFlushDb_without_NotFound (w : world env) (err : option error) :
  write_side_without_NotFound env ->
  result_of env performFlushDb w = Done err ->
  is_ErrNotFound err = false.
Proof.
  intros (_ & Hcluster & Hengine). unfold result_of, performFlushDb. simpl.
  pose proof (Hcluster w) as Hc.
  destruct (answer env cluster_FlushDB w) as [[view [e|]] w1]; simpl in *.
  - intros [= <-]. exact Hc.
  - match goal with
    | |- context [answer env ?c w1] =>
        match c with
        | engine_Write ?n ?a ?o ?r ?m =>
            pose proof (Hengine n a o r m w1) as He;
            destruct (answer env c w1) as [x w2]
        end
    end.
    simpl in *. intros [= <-]. exact He.
Qed.

Lemma converted_write_without_NotFound (p : Prog (option error))
    (w : world env) (err : option error) :
  (forall e, result_of env p w = Done e -> is_ErrNotFound e = false) ->
  result_of env (e <- p ;; Return (convertErrorToGRPC e)) w = Done err ->
  tells_NotFound err = false.
Proof.
  intros Hp. rewrite result_of_bind_Return.
  destruct (result_of env p w) as [e|]; simpl; [|discriminate].
  intros [= <-]. rewrite convertErrorToGRPC_tells_NotFound. now apply Hp.
Qed.

Lemma Exists_recasts_NotFound rq (w : world env) :
  match result_of env
          (performRead s (ExistsRequest.Key rq) (ExistsRequest.Options rq)
             (Exists_readOperator rq) (Exists_repairOperator rq)
             booleanComparer) w with
  | Done (_, Some ErrNotFound) =>
      result_of env (Exists s rq) w
      = Done (Some (ExistsResponse.mk false), None)
  | _ =>
      forall r err, result_of env (Exists s rq) w = Done (r, err) ->
                    tells_NotFound err = false
  end.
Proof.
  unfold Exists. rewrite result_of_bind.
  destruct (result_of env (performRead _ _ _ _ _ _) w) as [[v [e|]]|];
    simpl.
  - destruct e; simpl; try reflexivity; intros r err [= <- <-]; reflexivity.
  - destruct v; simpl; intros r err; intros [= <- <-] || discriminate;
      reflexivity.
  - discriminate.
Qed.

Lemma Expire_recasts_NotFound rq (w : world env) :
  match result_of env
          (performRead s (ExpireRequest.Key rq)
             (ReadOptions.mk
                (WriteOptions.Consistency (ExpireRequest.Options rq)))
             (Expire_readOperator rq) (Expire_repairOperator rq)
             booleanComparer) w with
  | Done (_, Some ErrNotFound) =>
      result_of env (Expire s rq) w
      = Done (Some (ExpireResponse.mk false), None)
  | _ =>
      forall r err, result_of env (Expire s rq) w = Done (r, err) ->
                    tells_NotFound err = false
  end.
Proof.
  unfold Expire. rewrite result_of_bind.
  destruct (result_of env (performRead _ _ _ _ _ _) w) as [[v [e|]]|];
    simpl.
  - destruct e; simpl; try reflexivity; intros r err [= <- <-]; reflexivity.
  - destruct v; simpl; intros r err; intros [= <- <-] || discriminate;
      reflexivity.
  - discriminate.
Qed.
End NotFound.

(** C7.  When the underlying read of Exists or of Expire ends in
    [ErrNotFound], the operation answers [Exists = false] with a nil
    error, and in no run at all does either of them return an error that
    tells NotFound.  Get and GetTTL do pass it on, as a NotFound status.
    The remaining operations perform no read: they return NotFound to the
    client in no run in which the cluster and the engine's [Write] keep to
    their contract of never answering [ErrNotFound]. *)
Theorem NotFound_only_from_Get_and_GetTTL :
  (forall (s : coreService) (env : Env Call) (w : world env) (v : Value),
     (forall rq,
        result_of env
          (performRead s (ExistsRequest.Key rq) (ExistsRequest.Options rq)
             (Exists_readOperator rq) (Exists_repairOperator rq)
             booleanComparer) w
        = Done (v, Some ErrNotFound) ->
        result_of env (Exists s rq) w
        = Done (Some (ExistsResponse.mk false), None)) /\
     (forall rq,
        result_of env
          (performRead s (ExpireRequest.Key rq)
             (ReadOptions.mk
                (WriteOptions.Consistency (ExpireRequest.Options rq)))
             (Expire_readOperator rq) (Expire_repairOperator rq)
             booleanComparer) w
        = Done (v, Some ErrNotFound) ->
        result_of env (Expire s rq) w
        = Done (Some (ExpireResponse.mk false), None)) /\
     (forall rq,
        result_of env
          (performRead s (GetRequest.Key rq) (GetRequest.Options rq)
             (Get_readOperator rq) (Get_repairOperator rq) byteComparer) w
        = Done (v, Some ErrNotFound) ->
        result_of env (Get s rq) w
        = Done (None, Some (status_Error codes_NotFound ErrNotFound))) /\
     (forall rq,
        result_of env
          (performRead s (GetTTLRequest.Key rq) (GetTTLRequest.Options rq)
             (GetTTL_readOperator rq) (GetTTL_repairOperator rq)
             durationComparer) w
        = Done (v, Some ErrNotFound) ->
        result_of env (GetTTL s rq) w
        = Done (None, Some (status_Error codes_NotFound ErrNotFound)))) /\
  (forall (s : coreService) (env : Env Call) (w : world env)
          (err : option error),
     (forall rq r, result_of env (Exists s rq) w = Done (r, err) ->
                   tells_NotFound err = false) /\
     (forall rq r, result_of env (Expire s rq) w = Done (r, err) ->
                   tells_NotFound err = false)) /\
  (forall (sorter : SliceSorter) (s : coreService) (env : Env Call)
          (w : world env) (err : option error),
     write_side_without_NotFound env ->
     (forall rq, result_of env (Set_ s rq) w = Done err ->
                 tells_NotFound err = false) /\
     (forall rq, result_of env (Delete s rq) w = Done err ->
                 tells_NotFound err = false) /\
     (forall rq, result_of env (Lock s rq) w = Done err ->
                 tells_NotFound err = false) /\
     (forall rq, result_of env (Unlock s rq) w = Done err ->
                 tells_NotFound err = false) /\
     (result_of env FlushDB w = Done err -> tells_NotFound err = false)).
Proof.
  split; [|split].
  - intros s env w v. repeat split; intros rq Hread.
    + pose proof (Exists_recasts_NotFound s env rq w) as H.
      now rewrite Hread in H.
    + pose proof (Expire_recasts_NotFound s env rq w) as H.
      now rewrite Hread in H.
    + unfold Get. rewrite result_of_bind, Hread. reflexivity.
    + unfold GetTTL. rewrite result_of_bind, Hread. reflexivity.
  - intros s env w err. split; intros rq r Hres.
    + pose proof (Exists_recasts_NotFound s env rq w) as H.
      destruct (result_of env (performRead _ _ _ _ _ _) w)
        as [[v [[]|]]|]; eauto.
      rewrite H in Hres. now injection Hres as <- <-.
    + pose proof (Expire_recasts_NotFound s env rq w) as H.
      destruct (result_of env (performRead _ _ _ _ _ _) w)
        as [[v [[]|]]|]; eauto.
      rewrite H in Hres. now injection Hres as <- <-.
  - intros sorter s env w err Hcontract.
    refine (conj _ (conj _ (conj _ (conj _ _))));
      unfold Set_, Delete, Lock, Unlock, FlushDB; intros;
      match goal with
      | Hres : result_of _ _ _ = Done _ |- _ =>
          eapply converted_write_without_NotFound; [|exact Hres]
      end; intros e;
      first [ now apply performWrite_without_NotFound
            | now apply performFlushDb_without_NotFound ].
Qed.

Lemma scripted_write_side_without_NotFound (sc : Script) :
  is_ErrNotFound (snd (on_cluster_Write sc)) = false ->
  is_ErrNotFound (snd (on_cluster_FlushDB sc)) = false ->
  is_ErrNotFound (on_engine_Write sc) = false ->
  write_side_without_NotFound (scripted sc).
Proof. intros Hw Hf He. repeat split; intros; assumption. Qed.

Lemma NotFound_only_from_Get_and_GetTTL_witness :
  result_of (scripted all_is_well)
    (Exists (New [])
       (ExistsRequest.mk "mykey" (ReadOptions.mk ConsistencyLevel_ALL)))
    [(nil_value, Some ErrNotFound)]
  = Done (Some (ExistsResponse.mk false), None) /\
  result_of (scripted all_is_well)
    (Get (New [])
       (GetRequest.mk "mykey" (ReadOptions.mk ConsistencyLevel_ALL)))
    [(nil_value, Some ErrNotFound)]
  = Done (None, Some (status_Error codes_NotFound ErrNotFound)) /\
  tells_NotFound None = false.
Proof.
  destruct NotFound_only_from_Get_and_GetTTL as (Hread & Hnever & Hwrite).
  destruct (Hread (New []) (scripted all_is_well)
              [(nil_value, Some ErrNotFound)] nil_value)
    as (HExists & _ & HGet & _).
  split; [|split].
  - apply HExists. reflexivity.
  - apply HGet. reflexivity.
  - destruct (Hwrite insertion_sorter (New []) (scripted all_is_well) [] None)
      as (HSet & _).
    + now apply scripted_write_side_without_NotFound.
    + apply (HSet (SetRequest.mk "mykey" [] 0%Z
                     (WriteOptions.mk ConsistencyLevel_DEFAULT))).
      reflexivity.
Defined.

(** ** GetTTL on a key without expiration *)

(** C10.  When the read of GetTTL succeeds with a nil value, be it the
    nil interface or a nil duration pointer, GetTTL returns a response
    whose TTL is nil, and a nil error. *)
Theorem GetTTL_nil_is_no_expiration (s : coreService) (env : Env Call)
    (w : world env) (rq : GetTTLRequest.t) (rawResult : Value) :
  rawResult = nil_value \/ rawResult = duration_ptr None ->
  result_of env
    (performRead s (GetTTLRequest.Key rq) (GetTTLRequest.Options rq)
       (GetTTL_readOperator rq) (GetTTL_repairOperator rq) durationComparer) w
  = Done (rawResult, None) ->
  result_of env (GetTTL s rq) w = Done (Some (GetTTLResponse.mk None), None).
Proof.
  intros Hnil Hread. unfold GetTTL. rewrite result_of_bind, Hread.
  destruct Hnil as [-> | ->]; reflexivity.
Qed.

Lemma GetTTL_nil_is_no_expiration_witness :
  result_of (scripted all_is_well)
    (GetTTL (New [])
       (GetTTLRequest.mk "mykey" (ReadOptions.mk ConsistencyLevel_ALL)))
    [(nil_value, None)]
  = Done (Some (GetTTLResponse.mk None), None).
Proof.
  apply (GetTTL_nil_is_no_expiration (New []) (scripted all_is_well)
           [(nil_value, None)] _ nil_value).
  - now left.
  - reflexivity.
Defined.

(** ** Read repair *)

Section GetRepair.
Variable env : Env Call.
Variable w : world env.
Variable request : GetRequest.t.
Variable args : RepairArgs.
Variable value : list byte.

Hypothesis winner_is_a_value : is_ErrNotFound (Err args) = false.
Hypothesis winning_value : Value_ args = bytes_value value.




End GetRepair.





(** C2 does not hold of the code.  In the repair of Expire and of Exists,
    with a non-nil winning value and a TTL read that succeeds with nil,
    the run stops in a panic right after the TTL read: the type
    assertion fails on a nil interface, and the dereference fails on a
    nil pointer.  No repair write is handed to the engine.  The repair
    of Get, which tests the TTL itself against nil, completes on the
    same answer. *)
Theorem Expire_Exists_repair_panics_on_nil_TTL :
  (exec (scripted all_is_well)
     (Expire_repairOperator expire_mykey winners_say_true) [(nil_value, None)]
   = (Fault interface_conversion,
      [Ev (engine_Read [node1; node2] 2 (Expire_ttlOperator expire_mykey) None
             durationComparer VotingModeSkipVoteOnNotFound)
          (nil_value, None)],
      []) /\
   exec (scripted all_is_well)
     (Expire_repairOperator expire_mykey winners_say_true)
     [(duration_ptr None, None)]
   = (Fault nil_pointer_dereference,
      [Ev (engine_Read [node1; node2] 2 (Expire_ttlOperator expire_mykey) None
             durationComparer VotingModeSkipVoteOnNotFound)
          (duration_ptr None, None)],
      [])) /\
  (exec (scripted all_is_well)
     (Exists_repairOperator exists_mykey winners_say_true) [(nil_value, None)]
   = (Fault interface_conversion,
      [Ev (engine_Read [node1; node2] 2 (Exists_ttlOperator exists_mykey) None
             durationComparer VotingModeSkipVoteOnNotFound)
          (nil_value, None)],
      []) /\
   exec (scripted all_is_well)
     (Exists_repairOperator exists_mykey winners_say_true)
     [(duration_ptr None, None)]
   = (Fault nil_pointer_dereference,
      [Ev (engine_Read [node1; node2] 2 (Exists_ttlOperator exists_mykey) None
             durationComparer VotingModeSkipVoteOnNotFound)
          (duration_ptr None, None)],
      [])) /\
  result_of (scripted all_is_well)
    (Get_repairOperator get_mykey winners_agree_on) [(nil_value, None)]
  = Done tt.
Proof. repeat split. Qed.

(** ** Lock and the sequential mode *)

Lemma ascending_by_Address (l : list Backend) :
  ascending (fun a b : Backend => String.ltb (Address a) (Address b)) l ->
  by_Address l.
Proof.
  unfold ascending, by_Address. induction 1 as [|a l Hl IH Ha]; constructor.
  - exact IH.
  - eapply Forall_impl; [exact Ha|]. intros b. simpl.
    unfold String.ltb, String.leb.
    rewrite (String.compare_antisym (Address b) (Address a)).
    now destruct (String.compare (Address a) (Address b)).
Qed.

(** Follow a run through every answer of the environment. *)
Ltac case_next :=
  match goal with
  | |- context [answer ?env ?c ?w] => destruct (answer env c w) as [? ?]
  | |- context [match ?x with _ => _ end] =>
      lazymatch x with
      | context [@exec] => fail
      | context [@answer] => fail
      | _ => destruct x
      end
  end.

Ltac unfold_idioms :=
  unfold lift, as_bytes, as_bool, as_duration_ptr, duration_of, deref, rbind.

Ltac follow_run := repeat (simpl; unfold_idioms; simpl; case_next); simpl.

Section Sequential.
Context {sorter : SliceSorter}.
Variable s : coreService.
Variable env : Env Call.
Variable w : world env.

Lemma sortNodes_Permutation (nodes : list Backend) :
  Permutation nodes (sortNodes nodes).
Proof. unfold sortNodes. simpl. apply sort_Slice_Permutation. Qed.

Lemma sortNodes_by_Address (nodes : list Backend) :
  by_Address (sortNodes nodes).
Proof.
  apply ascending_by_Address. unfold sortNodes.
  apply sort_Slice_ascending, Address_less_strict_weak.
Qed.

Lemma Lock_dispatch (rq : LockRequest.t) (view : WriteClusterView)
    (w1 : world env) :
  answer env
    (cluster_Write (LockRequest.Key rq)
       (writeConsistency s (LockRequest.Options rq))) w
  = ((view, None), w1) ->
  exists err,
    trace_of env (Lock s rq) w =
    [Ev (cluster_Write (LockRequest.Key rq)
           (writeConsistency s (LockRequest.Options rq))) (view, None);
     Ev (engine_Write (sortNodes (Backends view)) (AcknowledgeRequired view)
           (Lock_writeOperator rq) (Lock_rollbackOperator rq)
           OperationModeSequential) err].
Proof.
  intros Hview. unfold trace_of, Lock, performWrite. simpl.
  rewrite Hview. simpl. answer_next. now exists x.
Qed.

Lemma operations_write_concurrently :
  (forall rq, all_concurrent env (Set_ s rq) w) /\
  (forall rq, all_concurrent env (Delete s rq) w) /\
  (forall rq, all_concurrent env (Unlock s rq) w) /\
  all_concurrent env FlushDB w /\
  (forall rq, all_concurrent env (Get s rq) w) /\
  (forall rq, all_concurrent env (GetTTL s rq) w) /\
  (forall rq, all_concurrent env (Exists s rq) w) /\
  (forall rq, all_concurrent env (Expire s rq) w) /\
  all_concurrent env Close w.
Proof.
  unfold all_concurrent, trace_of.
  refine (conj _ (conj _ (conj _ (conj _ (conj _
           (conj _ (conj _ (conj _ _))))))));
    try intros rq;
    unfold Set_, Delete, Unlock, FlushDB, Get, GetTTL, Exists, Expire, Close,
      performWrite, performFlushDb, performRead, logIfError, logError;
    follow_run; repeat constructor.
Qed.

Lemma closures_write_concurrently (rollbackArgs : RollbackArgs)
    (args : RepairArgs) :
  (forall rq, all_concurrent env (Set_rollbackOperator rq rollbackArgs) w) /\
  (forall rq, all_concurrent env (Lock_rollbackOperator rq rollbackArgs) w) /\
  (forall rq, all_concurrent env (Get_setRollbackOperator rq rollbackArgs) w) /\
  (forall rq,
     all_concurrent env (Expire_setRollbackOperator rq rollbackArgs) w) /\
  (forall rq,
     all_concurrent env (Exists_setRollbackOperator rq rollbackArgs) w) /\
  (forall rq,
     all_concurrent env (GetTTL_setRollbackOperator rq rollbackArgs) w) /\
  (forall rq, all_concurrent env (Get_repairOperator rq args) w) /\
  (forall rq, all_concurrent env (Expire_repairOperator rq args) w) /\
  (forall rq, all_concurrent env (Exists_repairOperator rq args) w) /\
  (forall rq, all_concurrent env (GetTTL_repairOperator rq args) w).
Proof.
  unfold all_concurrent, trace_of.
  refine (conj _ (conj _ (conj _ (conj _ (conj _
           (conj _ (conj _ (conj _ (conj _ _)))))))));
    intros rq;
    unfold Set_rollbackOperator, Lock_rollbackOperator,
      Get_setRollbackOperator, Expire_setRollbackOperator,
      Exists_setRollbackOperator, GetTTL_setRollbackOperator,
      Get_repairOperator, Expire_repairOperator, Exists_repairOperator,
      GetTTL_repairOperator, Expire_repairValue, Exists_repairValue,
      GetTTL_repairValue, logIfError, logError;
    follow_run; repeat constructor.
Qed.
End Sequential.

(** C4.  Once the cluster has resolved the view, Lock hands the engine
    exactly one write, in Sequential mode, over the backends of the view
    rearranged in ascending order of their addresses.  Every write that
    any other operation, or any rollback or repair closure (that of Lock
    included), hands to the engine is in Concurrent mode. *)
Theorem Lock_is_the_only_sequential_write (sorter : SliceSorter)
    (s : coreService) (env : Env Call) (w : world env) :
  (forall (rq : LockRequest.t) (view : WriteClusterView) (w1 : world env),
     answer env
       (cluster_Write (LockRequest.Key rq)
          (writeConsistency s (LockRequest.Options rq))) w
     = ((view, None), w1) ->
     (exists err,
        trace_of env (Lock s rq) w =
        [Ev (cluster_Write (LockRequest.Key rq)
               (writeConsistency s (LockRequest.Options rq))) (view, None);
         Ev (engine_Write (sortNodes (Backends view))
               (AcknowledgeRequired view)
               (Lock_writeOperator rq) (Lock_rollbackOperator rq)
               OperationModeSequential) err]) /\
     Permutation (Backends view) (sortNodes (Backends view)) /\
     by_Address (sortNodes (Backends view))) /\
  ((forall rq, all_concurrent env (Set_ s rq) w) /\
   (forall rq, all_concurrent env (Delete s rq) w) /\
   (forall rq, all_concurrent env (Unlock s rq) w) /\
   all_concurrent env FlushDB w /\
   (forall rq, all_concurrent env (Get s rq) w) /\
   (forall rq, all_concurrent env (GetTTL s rq) w) /\
   (forall rq, all_concurrent env (Exists s rq) w) /\
   (forall rq, all_concurrent env (Expire s rq) w) /\
   all_concurrent env Close w) /\
  (forall (rollbackArgs : RollbackArgs) (args : RepairArgs),
     (forall rq, all_concurrent env (Set_rollbackOperator rq rollbackArgs) w) /\
     (forall rq, all_concurrent env (Lock_rollbackOperator rq rollbackArgs) w) /\
     (forall rq,
        all_concurrent env (Get_setRollbackOperator rq rollbackArgs) w) /\
     (forall rq,
        all_concurrent env (Expire_setRollbackOperator rq rollbackArgs) w) /\
     (forall rq,
        all_concurrent env (Exists_setRollbackOperator rq rollbackArgs) w) /\
     (forall rq,
        all_concurrent env (GetTTL_setRollbackOperator rq rollbackArgs) w) /\
     (forall rq, all_concurrent env (Get_repairOperator rq args) w) /\
     (forall rq, all_concurrent env (Expire_repairOperator rq args) w) /\
     (forall rq, all_concurrent env (Exists_repairOperator rq args) w) /\
     (forall rq, all_concurrent env (GetTTL_repairOperator rq args) w)).
Proof.
  split; [|split].
  - intros rq view w1 Hview. split; [|split].
    + now apply Lock_dispatch with w1.
    + apply sortNodes_Permutation.
    + apply sortNodes_by_Address.
  - apply operations_write_concurrently.
  - intros rollbackArgs args. apply closures_write_concurrently.
Qed.

Lemma Lock_is_the_only_sequential_write_witness :
  (exists err,
     trace_of (scripted all_is_well) (Lock (New []) lock_mykey) [] =
     [Ev (cluster_Write "mykey" ConsistencyLevel_ALL)
         (mkWriteClusterView [node1; node2; node3] 3, None);
      Ev (engine_Write [node2; node3; node1] 3
            (Lock_writeOperator lock_mykey) (Lock_rollbackOperator lock_mykey)
            OperationModeSequential) err]) /\
  by_Address [node2; node3; node1].
Proof.
  destruct (Lock_is_the_only_sequential_write insertion_sorter (New [])
              (scripted all_is_well) []) as (HLock & _).
  destruct (HLock lock_mykey (mkWriteClusterView [node1; node2; node3] 3) [])
    as (Htrace & _ & Hsorted); [reflexivity|].
  split; [exact Htrace | exact Hsorted].
Defined.

(** ** sortNodes leaves its argument alone *)

Section SortNodesInStore.
Context {sorter : SliceSorter}.

Lemma sort_Slice_nil {A : Type} (less : A -> A -> bool) :
  sort_Slice less [] = [].
Proof. apply Permutation_nil, sort_Slice_Permutation. Qed.

Lemma sort_Slice_length {A : Type} (less : A -> A -> bool) (l : list A) :
  length (sort_Slice less l) = length l.
Proof. symmetry. apply Permutation_length, sort_Slice_Permutation. Qed.

Lemma fresh_array_is_unused (h : store) : h !! fresh (dom h) = None.
Proof. apply not_elem_of_dom, is_fresh. Qed.

Lemma sortNodes_in_store_spec (nodes : slice) (h : store) :
  elements (sortNodes_in_store nodes h).2 (sortNodes_in_store nodes h).1
  = sortNodes (elements h nodes) /\
  (forall l arr, h !! l = Some arr ->
                 (sortNodes_in_store nodes h).2 !! l = Some arr) /\
  (elements h nodes = [] -> (sortNodes_in_store nodes h).2 = h).
Proof.
  unfold sortNodes_in_store, append, sortNodes. simpl.
  set (less := fun a b : Backend => String.ltb (Address a) (Address b)).
  destruct (decide (length (elements h nodes) <= 0)) as [Hempty|Hsome]; simpl.
  - destruct (elements h nodes) as [|x xs]; [|simpl in Hempty; lia].
    split; [|split; [now intros l arr Hl | reflexivity]].
    unfold elements. simpl. symmetry. apply sort_Slice_nil.
  - set (xs := elements h nodes) in *.
    set (l := fresh (dom h)).
    unfold sort_Slice_in_place, elements at 1. simpl.
    rewrite !lookup_insert_eq. simpl.
    rewrite drop_0, firstn_all, drop_all, app_nil_r. split; [|split].
    + rewrite <- (sort_Slice_length less xs). apply firstn_all.
    + intros l' arr Hl'.
      assert (l <> l') as Hne.
      { intros <-. unfold l in Hl'.
        rewrite fresh_array_is_unused in Hl'. discriminate. }
      now rewrite !lookup_insert_ne.
    + intros Hxs. rewrite Hxs in Hsome. simpl in Hsome. lia.
Qed.
End SortNodesInStore.

(** C9.  [sortNodes] hands back a slice that holds the elements of its
    argument rearranged in ascending order of their addresses.  The
    slice is a fresh copy: every backing array of the store, the one
    under the argument included, is as it was before the call, and so the
    argument still reads the same elements in the same order. *)
Theorem sortNodes_sorts_a_copy (sorter : SliceSorter) (nodes : slice)
    (h : store) :
  Permutation (elements h nodes)
    (elements (sortNodes_in_store nodes h).2 (sortNodes_in_store nodes h).1) /\
  by_Address
    (elements (sortNodes_in_store nodes h).2 (sortNodes_in_store nodes h).1) /\
  elements (sortNodes_in_store nodes h).2 (sortNodes_in_store nodes h).1
  = sortNodes (elements h nodes) /\
  (forall l arr, h !! l = Some arr ->
                 (sortNodes_in_store nodes h).2 !! l = Some arr) /\
  elements (sortNodes_in_store nodes h).2 nodes = elements h nodes.
Proof.
  destruct (sortNodes_in_store_spec nodes h) as (Hresult & Hframe & Hempty).
  rewrite Hresult.
  split; [apply sortNodes_Permutation|].
  split; [apply sortNodes_by_Address|].
  split; [reflexivity|].
  split; [exact Hframe|].
  destruct (array nodes) as [l|] eqn:Harray.
  - destruct (h !! l) as [arr|] eqn:Hl.
    + unfold elements. now rewrite Harray, Hl, (Hframe l arr Hl).
    + rewrite Hempty; [reflexivity|].
      unfold elements. now rewrite Harray, Hl.
  - unfold elements. now rewrite Harray.
Qed.

(** * Further properties of the service *)

(** ** From the cluster to the engine *)

Section Dispatch.
Context {sorter : SliceSorter}.
Variable s : coreService.
Variable env : Env Call.
Variable w : world env.

Lemma performWrite_unresolved key options operator rollback mode
    (view : WriteClusterView) (e : error) (w1 : world env) :
  answer env (cluster_Write key (writeConsistency s options)) w
  = ((view, Some e), w1) ->
  exec env (performWrite s key options operator rollback mode) w
  = (Done (Some e),
     [Ev (cluster_Write key (writeConsistency s options)) (view, Some e)], w1).
Proof.
  intros Hview. unfold performWrite. simpl. now rewrite Hview.
Qed.

Lemma performRead_unresolved key options readOperator repairOperator comparer
    (view : ReadClusterView) (e : error) (w1 : world env) :
  answer env (cluster_Read key (readConsistency s options)) w
  = ((view, Some e), w1) ->
  exec env (performRead s key options readOperator repairOperator comparer) w
  = (Done (nil_value, Some e),
     [Ev (cluster_Read key (readConsistency s options)) (view, Some e)], w1).
Proof.
  intros Hview. unfold performRead. simpl. now rewrite Hview.
Qed.

Lemma performFlushDb_unresolved (view : WriteClusterView) (e : error)
    (w1 : world env) :
  answer env cluster_FlushDB w = ((view, Some e), w1) ->
  exec env performFlushDb w
  = (Done (Some e), [Ev cluster_FlushDB (view, Some e)], w1).
Proof.
  intros Hview. unfold performFlushDb. simpl. now rewrite Hview.
Qed.

Lemma performWrite_resolved key options operator rollback
    (view : WriteClusterView) (w1 : world env) :
  answer env (cluster_Write key (writeConsistency s options)) w
  = ((view, None), w1) ->
  exists err w2,
    exec env
      (performWrite s key options operator rollback OperationModeConcurrent) w
    = (Done err,
       [Ev (cluster_Write key (writeConsistency s options)) (view, None);
        Ev (engine_Write (Backends view) (AcknowledgeRequired view)
              operator rollback OperationModeConcurrent) err],
       w2).
Proof.
  intros Hview. unfold performWrite. simpl. rewrite Hview. simpl.
  answer_next. eauto.
Qed.

Lemma performRead_resolved key options readOperator repairOperator comparer
    (view : ReadClusterView) (w1 : world env) :
  answer env (cluster_Read key (readConsistency s options)) w
  = ((view, None), w1) ->
  exists r w2,
    exec env (performRead s key options readOperator repairOperator comparer) w
    = (Done r,
       [Ev (cluster_Read key (readConsistency s options)) (view, None);
        Ev (engine_Read (rBackends view) (VoteRequired view) readOperator
              (Some repairOperator) comparer (VotingMode_ view)) r],
       w2).
Proof.
  intros Hview. unfold performRead. simpl. rewrite Hview. simpl.
  answer_next. eauto.
Qed.

Lemma exec_bind_Return {A B : Type} (p : Prog A) (f : A -> B)
    (a : A) (t : list (Event Call)) (w1 : world env) :
  exec env p w = (Done a, t, w1) ->
  exec env (x <- p ;; Return (f x)) w = (Done (f a), t, w1).
Proof.
  intros Hp. rewrite exec_bind, Hp. simpl. now rewrite app_nil_r.
Qed.
End Dispatch.

(** X1.  When the cluster cannot resolve the view, an operation stops
    there: the engine is not called, and the operation returns the
    cluster's error through the conversion.  Exists and Expire answer
    [Exists = false] instead when that error is [ErrNotFound]. *)
Theorem unresolved_view_stops_the_operation (sorter : SliceSorter)
    (s : coreService) (env : Env Call) (w w1 : world env) (e : error)
    (rview : ReadClusterView) (wview : WriteClusterView) :
  (forall rq,
     answer env
       (cluster_Write (SetRequest.Key rq)
          (writeConsistency s (SetRequest.Options rq))) w
     = ((wview, Some e), w1) ->
     exec env (Set_ s rq) w
     = (Done (convertErrorToGRPC (Some e)),
        [Ev (cluster_Write (SetRequest.Key rq)
               (writeConsistency s (SetRequest.Options rq)))
            (wview, Some e)], w1)) /\
  (forall rq,
     answer env
       (cluster_Write (DeleteRequest.Key rq)
          (writeConsistency s (DeleteRequest.Options rq))) w
     = ((wview, Some e), w1) ->
     exec env (Delete s rq) w
     = (Done (convertErrorToGRPC (Some e)),
        [Ev (cluster_Write (DeleteRequest.Key rq)
               (writeConsistency s (DeleteRequest.Options rq)))
            (wview, Some e)], w1)) /\
  (forall rq,
     answer env
       (cluster_Write (LockRequest.Key rq)
          (writeConsistency s (LockRequest.Options rq))) w
     = ((wview, Some e), w1) ->
     exec env (Lock s rq) w
     = (Done (convertErrorToGRPC (Some e)),
        [Ev (cluster_Write (LockRequest.Key rq)
               (writeConsistency s (LockRequest.Options rq)))
            (wview, Some e)], w1)) /\
  (forall rq,
     answer env
       (cluster_Write (UnlockRequest.Key rq)
          (writeConsistency s (UnlockRequest.Options rq))) w
     = ((wview, Some e), w1) ->
     exec env (Unlock s rq) w
     = (Done (convertErrorToGRPC (Some e)),
        [Ev (cluster_Write (UnlockRequest.Key rq)
               (writeConsistency s (UnlockRequest.Options rq)))
            (wview, Some e)], w1)) /\
  (answer env cluster_FlushDB w = ((wview, Some e), w1) ->
   exec env FlushDB w
   = (Done (convertErrorToGRPC (Some e)),
      [Ev cluster_FlushDB (wview, Some e)], w1)) /\
  (forall rq,
     answer env
       (cluster_Read (GetRequest.Key rq)
          (readConsistency s (GetRequest.Options rq))) w
     = ((rview, Some e), w1) ->
     exec env (Get s rq) w
     = (Done (None, convertErrorToGRPC (Some e)),
        [Ev (cluster_Read (GetRequest.Key rq)
               (readConsistency s (GetRequest.Options rq)))
            (rview, Some e)], w1)) /\
  (forall rq,
     answer env
       (cluster_Read (GetTTLRequest.Key rq)
          (readConsistency s (GetTTLRequest.Options rq))) w
     = ((rview, Some e), w1) ->
     exec env (GetTTL s rq) w
     = (Done (None, convertErrorToGRPC (Some e)),
        [Ev (cluster_Read (GetTTLRequest.Key rq)
               (readConsistency s (GetTTLRequest.Options rq)))
            (rview, Some e)], w1)) /\
  (forall rq,
     answer env
       (cluster_Read (ExistsRequest.Key rq)
          (readConsistency s (ExistsRequest.Options rq))) w
     = ((rview, Some e), w1) ->
     exec env (Exists s rq) w
     = (Done (if is_ErrNotFound (Some e)
              then (Some (ExistsResponse.mk false), None)
              else (None, convertErrorToGRPC (Some e))),
        [Ev (cluster_Read (ExistsRequest.Key rq)
               (readConsistency s (ExistsRequest.Options rq)))
            (rview, Some e)], w1)) /\
  (forall rq,
     answer env
       (cluster_Read (ExpireRequest.Key rq)
          (readConsistency s
             (ReadOptions.mk
                (WriteOptions.Consistency (ExpireRequest.Options rq))))) w
     = ((rview, Some e), w1) ->
     exec env (Expire s rq) w
     = (Done (if is_ErrNotFound (Some e)
              then (Some (ExpireResponse.mk false), None)
              else (None, convertErrorToGRPC (Some e))),
        [Ev (cluster_Read (ExpireRequest.Key rq)
               (readConsistency s
                  (ReadOptions.mk
                     (WriteOptions.Consistency (ExpireRequest.Options rq)))))
            (rview, Some e)], w1)).
Proof.
  refine (conj _ (conj _ (conj _ (conj _ (conj _
           (conj _ (conj _ (conj _ _))))))));
    intros;
    unfold Set_, Delete, Lock, Unlock, FlushDB, Get, GetTTL, Exists, Expire;
    rewrite exec_bind;
    first [ erewrite performWrite_unresolved by eassumption
          | erewrite performFlushDb_unresolved by eassumption
          | erewrite performRead_unresolved by eassumption ];
    simpl; try reflexivity; destruct e; reflexivity.
Qed.

Lemma unresolved_view_stops_the_operation_witness :
  exec (scripted cluster_is_short) (Set_ (New []) set_mykey) []
  = (Done (Some (status_Error codes_Unavailable ErrConsistency)),
     [Ev (cluster_Write "mykey" ConsistencyLevel_ALL)
         (mkWriteClusterView [] 0, Some ErrConsistency)], []) /\
  exec (scripted cluster_is_short) (Exists (New []) exists_mykey) []
  = (Done (None, Some (status_Error codes_Unavailable ErrConsistency)),
     [Ev (cluster_Read "mykey" ConsistencyLevel_ALL)
         (mkReadClusterView [] 0 VotingModeVoteOnNotFound,
          Some ErrConsistency)], []).
Proof.
  destruct (unresolved_view_stops_the_operation insertion_sorter (New [])
              (scripted cluster_is_short) [] [] ErrConsistency
              (mkReadClusterView [] 0 VotingModeVoteOnNotFound)
              (mkWriteClusterView [] 0))
    as (HSet & _ & _ & _ & _ & _ & _ & HExists & _).
  split.
  - apply (HSet set_mykey). reflexivity.
  - apply (HExists exists_mykey). reflexivity.
Defined.

Section DispatchResolved.
Context {sorter : SliceSorter}.
Variable s : coreService.
Variable env : Env Call.
Variable w : world env.

Lemma performFlushDb_resolved (view : WriteClusterView) (w1 : world env) :
  answer env cluster_FlushDB w = ((view, None), w1) ->
  exists err w2,
    exec env FlushDB w
    = (Done (convertErrorToGRPC err),
       [Ev cluster_FlushDB (view, None);
        Ev (engine_Write (Backends view) (AcknowledgeRequired view)
              (fun node => call (Backend_FlushDB node))
              (fun _ => Return tt) OperationModeConcurrent) err],
       w2).
Proof.
  intros Hview. unfold FlushDB, performFlushDb. simpl. rewrite Hview. simpl.
  answer_next. eauto.
Qed.

Lemma converted_write_resolved key options operator rollback
    (view : WriteClusterView) (w1 : world env) :
  answer env (cluster_Write key (writeConsistency s options)) w
  = ((view, None), w1) ->
  exists err w2,
    exec env
      (e <- performWrite s key options operator rollback
              OperationModeConcurrent ;;
       Return (convertErrorToGRPC e)) w
    = (Done (convertErrorToGRPC err),
       [Ev (cluster_Write key (writeConsistency s options)) (view, None);
        Ev (engine_Write (Backends view) (AcknowledgeRequired view)
              operator rollback OperationModeConcurrent) err],
       w2).
Proof.
  intros Hview.
  destruct (performWrite_resolved s env w key options operator rollback
              view w1 Hview) as (err & w2 & Hexec).
  exists err, w2. now apply exec_bind_Return.
Qed.

Lemma read_trace_resolved {R : Type} key options readOperator repairOperator
    comparer (k : Value * option error -> Prog R)
    (view : ReadClusterView) (w1 : world env) :
  (forall r w', trace_of env (k r) w' = []) ->
  answer env (cluster_Read key (readConsistency s options)) w
  = ((view, None), w1) ->
  exists r,
    trace_of env
      (x <- performRead s key options readOperator repairOperator comparer ;;
       k x) w
    = [Ev (cluster_Read key (readConsistency s options)) (view, None);
       Ev (engine_Read (rBackends view) (VoteRequired view) readOperator
             (Some repairOperator) comparer (VotingMode_ view)) r].
Proof.
  intros Hk Hview.
  destruct (performRead_resolved s env w key options readOperator
              repairOperator comparer view w1 Hview) as (r & w2 & Hexec).
  exists r. rewrite trace_of_bind_silent by exact Hk.
  unfold trace_of. now rewrite Hexec.
Qed.
End DispatchResolved.

(** X2.  Set, Delete, Unlock and FlushDB hand the engine one write, in
    Concurrent mode, over the backends of the resolved view in the order
    the cluster gave them and with the view's acknowledgement threshold;
    what they return is the conversion of the engine's answer. *)
Theorem concurrent_writes_keep_the_view (sorter : SliceSorter)
    (s : coreService) (env : Env Call) (w w1 : world env)
    (view : WriteClusterView) :
  (forall rq,
     answer env
       (cluster_Write (SetRequest.Key rq)
          (writeConsistency s (SetRequest.Options rq))) w
     = ((view, None), w1) ->
     exists err w2,
       exec env (Set_ s rq) w
       = (Done (convertErrorToGRPC err),
          [Ev (cluster_Write (SetRequest.Key rq)
                 (writeConsistency s (SetRequest.Options rq))) (view, None);
           Ev (engine_Write (Backends view) (AcknowledgeRequired view)
                 (Set_writeOperator rq) (Set_rollbackOperator rq)
                 OperationModeConcurrent) err],
          w2)) /\
  (forall rq,
     answer env
       (cluster_Write (DeleteRequest.Key rq)
          (writeConsistency s (DeleteRequest.Options rq))) w
     = ((view, None), w1) ->
     exists err w2,
       exec env (Delete s rq) w
       = (Done (convertErrorToGRPC err),
          [Ev (cluster_Write (DeleteRequest.Key rq)
                 (writeConsistency s (DeleteRequest.Options rq))) (view, None);
           Ev (engine_Write (Backends view) (AcknowledgeRequired view)
                 (Delete_writeOperator rq) Delete_rollbackOperator
                 OperationModeConcurrent) err],
          w2)) /\
  (forall rq,
     answer env
       (cluster_Write (UnlockRequest.Key rq)
          (writeConsistency s (UnlockRequest.Options rq))) w
     = ((view, None), w1) ->
     exists err w2,
       exec env (Unlock s rq) w
       = (Done (convertErrorToGRPC err),
          [Ev (cluster_Write (UnlockRequest.Key rq)
                 (writeConsistency s (UnlockRequest.Options rq))) (view, None);
           Ev (engine_Write (Backends view) (AcknowledgeRequired view)
                 (Unlock_writeOperator rq) Unlock_rollbackOperator
                 OperationModeConcurrent) err],
          w2)) /\
  (answer env cluster_FlushDB w = ((view, None), w1) ->
   exists err w2,
     exec env FlushDB w
     = (Done (convertErrorToGRPC err),
        [Ev cluster_FlushDB (view, None);
         Ev (engine_Write (Backends view) (AcknowledgeRequired view)
               (fun node => call (Backend_FlushDB node))
               (fun _ => Return tt) OperationModeConcurrent) err],
        w2)).
Proof.
  refine (conj _ (conj _ (conj _ _))); intros.
  - now apply converted_write_resolved with w1.
  - now apply converted_write_resolved with w1.
  - now apply converted_write_resolved with w1.
  - now apply performFlushDb_resolved with w1.
Qed.

Lemma concurrent_writes_keep_the_view_witness :
  exists err w2,
    exec (scripted all_is_well) (Set_ (New []) set_mykey) []
    = (Done (convertErrorToGRPC err),
       [Ev (cluster_Write "mykey" ConsistencyLevel_ALL)
           (mkWriteClusterView [node1; node2; node3] 3, None);
        Ev (engine_Write [node1; node2; node3] 3
              (Set_writeOperator set_mykey) (Set_rollbackOperator set_mykey)
              OperationModeConcurrent) err],
       w2).
Proof.
  destruct (concurrent_writes_keep_the_view insertion_sorter (New [])
              (scripted all_is_well) [] []
              (mkWriteClusterView [node1; node2; node3] 3)) as (HSet & _).
  apply (HSet set_mykey). reflexivity.
Defined.

(** X3.  Get, GetTTL, Exists and Expire hand the engine one read over the
    backends of the resolved view, with the view's vote threshold and
    voting mode unchanged, their own repair closure, and their comparer:
    byte equality for Get, the tolerant duration comparer for GetTTL, the
    boolean comparer for Exists and Expire.  They call nothing else. *)
Theorem reads_keep_the_view (s : coreService) (env : Env Call)
    (w w1 : world env) (view : ReadClusterView) :
  (forall rq,
     answer env
       (cluster_Read (GetRequest.Key rq)
          (readConsistency s (GetRequest.Options rq))) w
     = ((view, None), w1) ->
     exists r,
       trace_of env (Get s rq) w
       = [Ev (cluster_Read (GetRequest.Key rq)
                (readConsistency s (GetRequest.Options rq))) (view, None);
          Ev (engine_Read (rBackends view) (VoteRequired view)
                (Get_readOperator rq) (Some (Get_repairOperator rq))
                byteComparer (VotingMode_ view)) r]) /\
  (forall rq,
     answer env
       (cluster_Read (GetTTLRequest.Key rq)
          (readConsistency s (GetTTLRequest.Options rq))) w
     = ((view, None), w1) ->
     exists r,
       trace_of env (GetTTL s rq) w
       = [Ev (cluster_Read (GetTTLRequest.Key rq)
                (readConsistency s (GetTTLRequest.Options rq))) (view, None);
          Ev (engine_Read (rBackends view) (VoteRequired view)
                (GetTTL_readOperator rq) (Some (GetTTL_repairOperator rq))
                durationComparer (VotingMode_ view)) r]) /\
  (forall rq,
     answer env
       (cluster_Read (ExistsRequest.Key rq)
          (readConsistency s (ExistsRequest.Options rq))) w
     = ((view, None), w1) ->
     exists r,
       trace_of env (Exists s rq) w
       = [Ev (cluster_Read (ExistsRequest.Key rq)
                (readConsistency s (ExistsRequest.Options rq))) (view, None);
          Ev (engine_Read (rBackends view) (VoteRequired view)
                (Exists_readOperator rq) (Some (Exists_repairOperator rq))
                booleanComparer (VotingMode_ view)) r]) /\
  (forall rq,
     answer env
       (cluster_Read (ExpireRequest.Key rq)
          (readConsistency s
             (ReadOptions.mk
                (WriteOptions.Consistency (ExpireRequest.Options rq))))) w
     = ((view, None), w1) ->
     exists r,
       trace_of env (Expire s rq) w
       = [Ev (cluster_Read (ExpireRequest.Key rq)
                (readConsistency s
                   (ReadOptions.mk
                      (WriteOptions.Consistency (ExpireRequest.Options rq)))))
             (view, None);
          Ev (engine_Read (rBackends view) (VoteRequired view)
                (Expire_readOperator rq) (Some (Expire_repairOperator rq))
                booleanComparer (VotingMode_ view)) r]).
Proof.
  refine (conj _ (conj _ (conj _ _))); intros rq Hview;
    unfold Get, GetTTL, Exists, Expire;
    (eapply read_trace_resolved; [|exact Hview]);
    intros [v [e|]] w'; unfold trace_of; simpl;
    try (destruct e; reflexivity); destruct v; reflexivity.
Qed.

Lemma reads_keep_the_view_witness :
  exists r,
    trace_of (scripted all_is_well) (GetTTL (New []) getttl_mykey)
      [(duration_ptr (Some time.Minute), None)]
    = [Ev (cluster_Read "mykey" ConsistencyLevel_ALL)
          (mkReadClusterView [node1; node2; node3] 3 VotingModeVoteOnNotFound,
           None);
       Ev (engine_Read [node1; node2; node3] 3
             (GetTTL_readOperator getttl_mykey)
             (Some (GetTTL_repairOperator getttl_mykey))
             durationComparer VotingModeVoteOnNotFound) r].
Proof.
  destruct (reads_keep_the_view (New []) (scripted all_is_well)
              [(duration_ptr (Some time.Minute), None)]
              [(duration_ptr (Some time.Minute), None)]
              (mkReadClusterView [node1; node2; node3] 3
                 VotingModeVoteOnNotFound)) as (_ & HGetTTL & _).
  apply (HGetTTL getttl_mykey). reflexivity.
Defined.

(** ** Repair and rollback closures *)

(** X4.  When the winning outcome is [ErrNotFound], the repair of Get,
    Expire, Exists and GetTTL reads nothing and hands the engine exactly
    one write: a best-effort [Delete(key)] on the losers, with no
    rollback.  The repair completes whatever the engine answers. *)
Theorem repair_deletes_stale_keys (env : Env Call) (w : world env)
    (args : RepairArgs) :
  is_ErrNotFound (Err args) = true ->
  (forall rq,
     result_of env (Get_repairOperator rq args) w = Done tt /\
     engine_reads (trace_of env (Get_repairOperator rq args) w) = [] /\
     exists c,
       engine_writes (trace_of env (Get_repairOperator rq args) w) = [c] /\
       deletes_on (Losers args) (GetRequest.Key rq) c) /\
  (forall rq,
     result_of env (Expire_repairOperator rq args) w = Done tt /\
     engine_reads (trace_of env (Expire_repairOperator rq args) w) = [] /\
     exists c,
       engine_writes (trace_of env (Expire_repairOperator rq args) w) = [c] /\
       deletes_on (Losers args) (ExpireRequest.Key rq) c) /\
  (forall rq,
     result_of env (Exists_repairOperator rq args) w = Done tt /\
     engine_reads (trace_of env (Exists_repairOperator rq args) w) = [] /\
     exists c,
       engine_writes (trace_of env (Exists_repairOperator rq args) w) = [c] /\
       deletes_on (Losers args) (ExistsRequest.Key rq) c) /\
  (forall rq,
     result_of env (GetTTL_repairOperator rq args) w = Done tt /\
     engine_reads (trace_of env (GetTTL_repairOperator rq args) w) = [] /\
     exists c,
       engine_writes (trace_of env (GetTTL_repairOperator rq args) w) = [c] /\
       deletes_on (Losers args) (GetTTLRequest.Key rq) c).
Proof.
  intros Hwinner.
  refine (conj _ (conj _ (conj _ _))); intros rq;
    unfold result_of, trace_of, Get_repairOperator, Expire_repairOperator,
      Exists_repairOperator, GetTTL_repairOperator;
    rewrite Hwinner; simpl;
    answer_next; destruct x as [e|]; simpl;
    try (answer_next; destruct x);
    (split; [reflexivity|]; split; [reflexivity|];
     eexists; split; [reflexivity|]; repeat split).
Qed.

Lemma repair_deletes_stale_keys_witness :
  exists c,
    engine_writes
      (trace_of (scripted all_is_well)
         (Get_repairOperator get_mykey winners_say_NotFound) []) = [c] /\
    deletes_on [node3] "mykey" c.
Proof.
  destruct (repair_deletes_stale_keys (scripted all_is_well) []
              winners_say_NotFound eq_refl) as (HGet & _).
  destruct (HGet get_mykey) as (_ & _ & Hc). exact Hc.
Defined.

(** X5.  When the winner is a value and the read of the TTL on the
    winners fails, the repair of Get, Expire and Exists logs that error
    and gives up: no further read, no write. *)
Theorem repair_gives_up_without_TTL (env : Env Call) (w w1 : world env)
    (args : RepairArgs) (v : Value) (e : error) :
  is_ErrNotFound (Err args) = false ->
  (forall rq,
     answer env
       (engine_Read (Winners args) (majority (len (Winners args)))
          (Get_ttlOperator rq) None durationComparer
          VotingModeSkipVoteOnNotFound) w
     = ((v, Some e), w1) ->
     result_of env (Get_repairOperator rq args) w = Done tt /\
     trace_of env (Get_repairOperator rq args) w
     = [Ev (engine_Read (Winners args) (majority (len (Winners args)))
              (Get_ttlOperator rq) None durationComparer
              VotingModeSkipVoteOnNotFound) (v, Some e);
        Ev (logrus_Error e "unexpected error during read repair") tt]) /\
  (forall rq,
     answer env
       (engine_Read (Winners args) (majority (len (Winners args)))
          (Expire_ttlOperator rq) None durationComparer
          VotingModeSkipVoteOnNotFound) w
     = ((v, Some e), w1) ->
     result_of env (Expire_repairOperator rq args) w = Done tt /\
     trace_of env (Expire_repairOperator rq args) w
     = [Ev (engine_Read (Winners args) (majority (len (Winners args)))
              (Expire_ttlOperator rq) None durationComparer
              VotingModeSkipVoteOnNotFound) (v, Some e);
        Ev (logrus_Error e "unexpected error during read repair") tt]) /\
  (forall rq,
     answer env
       (engine_Read (Winners args) (majority (len (Winners args)))
          (Exists_ttlOperator rq) None durationComparer
          VotingModeSkipVoteOnNotFound) w
     = ((v, Some e), w1) ->
     result_of env (Exists_repairOperator rq args) w = Done tt /\
     trace_of env (Exists_repairOperator rq args) w
     = [Ev (engine_Read (Winners args) (majority (len (Winners args)))
              (Exists_ttlOperator rq) None durationComparer
              VotingModeSkipVoteOnNotFound) (v, Some e);
        Ev (logrus_Error e "unexpected error during read repair") tt]).
Proof.
  intros Hwinner.
  refine (conj _ (conj _ _)); intros rq Hread;
    unfold result_of, trace_of, Get_repairOperator, Expire_repairOperator,
      Exists_repairOperator;
    rewrite Hwinner; simpl; rewrite Hread; simpl;
    answer_next; destruct x; now split.
Qed.

Lemma repair_gives_up_without_TTL_witness :
  trace_of (scripted all_is_well)
    (Expire_repairOperator expire_mykey winners_say_true)
    [(nil_value, Some ErrConsistency)]
  = [Ev (engine_Read [node1; node2] 2 (Expire_ttlOperator expire_mykey) None
           durationComparer VotingModeSkipVoteOnNotFound)
        (nil_value, Some ErrConsistency);
     Ev (logrus_Error ErrConsistency "unexpected error during read repair") tt].
Proof.
  destruct (repair_gives_up_without_TTL (scripted all_is_well)
              [(nil_value, Some ErrConsistency)] [] winners_say_true
              nil_value ErrConsistency eq_refl) as (_ & HExpire & _).
  destruct (HExpire expire_mykey eq_refl) as [_ Htrace]. exact Htrace.
Defined.

Section RepairFromAgreedTTL.
Variable env : Env Call.
Variables w w1 : world env.
Variable args : RepairArgs.
Variable ttl : time.Duration.

Hypothesis winner_is_a_value : is_ErrNotFound (Err args) = false.
Hypothesis winning_value_not_nil : is_nil (Value_ args) = false.

Lemma Expire_repair_from_TTL (rq : ExpireRequest.t) :
  answer env
    (engine_Read (Winners args) (majority (len (Winners args)))
       (Expire_ttlOperator rq) None durationComparer
       VotingModeSkipVoteOnNotFound) w
  = ((duration_ptr (Some ttl), None), w1) ->
  (ttl = 0%Z ->
   result_of env (Expire_repairOperator rq args) w = Done tt /\
   exists c,
     engine_writes (trace_of env (Expire_repairOperator rq args) w) = [c] /\
     deletes_on (Losers args) (ExpireRequest.Key rq) c) /\
  (ttl <> 0%Z ->
   forall data w2,
     answer env
       (engine_Read (Winners args) (majority (len (Winners args)))
          (Expire_getOperator rq) None byteComparer
          VotingModeSkipVoteOnNotFound) w1
     = ((bytes_value data, None), w2) ->
     result_of env (Expire_repairOperator rq args) w = Done tt /\
     exists c,
       engine_writes (trace_of env (Expire_repairOperator rq args) w) = [c] /\
       sets_on (Losers args) (ExpireRequest.Key rq) data ttl c) /\
  (ttl <> 0%Z ->
   forall v e w2,
     answer env
       (engine_Read (Winners args) (majority (len (Winners args)))
          (Expire_getOperator rq) None byteComparer
          VotingModeSkipVoteOnNotFound) w1
     = ((v, Some e), w2) ->
     result_of env (Expire_repairOperator rq args) w = Done tt /\
     engine_writes (trace_of env (Expire_repairOperator rq args) w) = [] /\
     logged (trace_of env (Expire_repairOperator rq args) w)
     = [(e, "unexpected error during read repair"%string)]).
Proof.
  intros Httl.
  unfold result_of, trace_of, Expire_repairOperator, Expire_repairValue.
  rewrite winner_is_a_value. simpl. rewrite Httl. simpl.
  rewrite winning_value_not_nil. simpl.
  split; [|split].
  - intros ->. simpl. answer_next.
    destruct x as [e|]; simpl; try (answer_next; destruct x);
      (split; [reflexivity|]; eexists; split; [reflexivity|]; repeat split).
  - intros Hnz data w2 Hvalue.
    destruct (Z.eqb_spec ttl 0) as [|_]; [contradiction|]. simpl.
    rewrite Hvalue. simpl. answer_next.
    destruct x as [e|]; simpl; try (answer_next; destruct x);
      (split; [reflexivity|]; eexists; split; [reflexivity|]; repeat split).
  - intros Hnz v e w2 Hvalue.
    destruct (Z.eqb_spec ttl 0) as [|_]; [contradiction|]. simpl.
    rewrite Hvalue. simpl. answer_next. destruct x. now repeat split.
Qed.

Lemma Exists_repair_from_TTL (rq : ExistsRequest.t) :
  answer env
    (engine_Read (Winners args) (majority (len (Winners args)))
       (Exists_ttlOperator rq) None durationComparer
       VotingModeSkipVoteOnNotFound) w
  = ((duration_ptr (Some ttl), None), w1) ->
  (ttl = 0%Z ->
   result_of env (Exists_repairOperator rq args) w = Done tt /\
   exists c,
     engine_writes (trace_of env (Exists_repairOperator rq args) w) = [c] /\
     deletes_on (Losers args) (ExistsRequest.Key rq) c) /\
  (ttl <> 0%Z ->
   forall data w2,
     answer env
       (engine_Read (Winners args) (majority (len (Winners args)))
          (Exists_getOperator rq) None byteComparer
          VotingModeSkipVoteOnNotFound) w1
     = ((bytes_value data, None), w2) ->
     result_of env (Exists_repairOperator rq args) w = Done tt /\
     exists c,
       engine_writes (trace_of env (Exists_repairOperator rq args) w) = [c] /\
       sets_on (Losers args) (ExistsRequest.Key rq) data ttl c) /\
  (ttl <> 0%Z ->
   forall v e w2,
     answer env
       (engine_Read (Winners args) (majority (len (Winners args)))
          (Exists_getOperator rq) None byteComparer
          VotingModeSkipVoteOnNotFound) w1
     = ((v, Some e), w2) ->
     result_of env (Exists_repairOperator rq args) w = Done tt /\
     engine_writes (trace_of env (Exists_repairOperator rq args) w) = [] /\
     logged (trace_of env (Exists_repairOperator rq args) w)
     = [(e, "unexpected error during read repair"%string)]).
Proof.
  intros Httl.
  unfold result_of, trace_of, Exists_repairOperator, Exists_repairValue.
  rewrite winner_is_a_value. simpl. rewrite Httl. simpl.
  rewrite winning_value_not_nil. simpl.
  split; [|split].
  - intros ->. simpl. answer_next.
    destruct x as [e|]; simpl; try (answer_next; destruct x);
      (split; [reflexivity|]; eexists; split; [reflexivity|]; repeat split).
  - intros Hnz data w2 Hvalue.
    destruct (Z.eqb_spec ttl 0) as [|_]; [contradiction|]. simpl.
    rewrite Hvalue. simpl. answer_next.
    destruct x as [e|]; simpl; try (answer_next; destruct x);
      (split; [reflexivity|]; eexists; split; [reflexivity|]; repeat split).
  - intros Hnz v e w2 Hvalue.
    destruct (Z.eqb_spec ttl 0) as [|_]; [contradiction|]. simpl.
    rewrite Hvalue. simpl. answer_next. destruct x. now repeat split.
Qed.
End RepairFromAgreedTTL.

(** X6.  In the repair of Expire and of Exists, when the winner is a
    value and the winners agree on a (non-nil) TTL: a zero TTL deletes the
    key on the losers; a non-zero TTL makes the repair read the value from
    the winners and set it on the losers with that TTL, and if that read
    fails the error is logged and nothing is written. *)
Theorem Expire_Exists_repair_from_agreed_TTL (env : Env Call)
    (w w1 : world env) (args : RepairArgs) (ttl : time.Duration) :
  is_ErrNotFound (Err args) = false ->
  is_nil (Value_ args) = false ->
  (forall rq,
     answer env
       (engine_Read (Winners args) (majority (len (Winners args)))
          (Expire_ttlOperator rq) None durationComparer
          VotingModeSkipVoteOnNotFound) w
     = ((duration_ptr (Some ttl), None), w1) ->
     repaired_from_TTL env w w1 (Expire_repairOperator rq args)
       (engine_Read (Winners args) (majority (len (Winners args)))
          (Expire_getOperator rq) None byteComparer
          VotingModeSkipVoteOnNotFound)
       (Losers args) (ExpireRequest.Key rq) ttl) /\
  (forall rq,
     answer env
       (engine_Read (Winners args) (majority (len (Winners args)))
          (Exists_ttlOperator rq) None durationComparer
          VotingModeSkipVoteOnNotFound) w
     = ((duration_ptr (Some ttl), None), w1) ->
     repaired_from_TTL env w w1 (Exists_repairOperator rq args)
       (engine_Read (Winners args) (majority (len (Winners args)))
          (Exists_getOperator rq) None byteComparer
          VotingModeSkipVoteOnNotFound)
       (Losers args) (ExistsRequest.Key rq) ttl).
Proof.
  intros Hwinner Hvalue. split; intros rq Httl.
  - now apply Expire_repair_from_TTL.
  - now apply Exists_repair_from_TTL.
Qed.

Lemma Expire_Exists_repair_from_agreed_TTL_witness :
  exists c,
    engine_writes
      (trace_of (scripted all_is_well)
         (Expire_repairOperator expire_mykey winners_say_true)
         [(duration_ptr (Some time.Minute), None);
          (bytes_value [x56], None)]) = [c] /\
    sets_on [node3] "mykey" [x56] time.Minute c.
Proof.
  destruct (Expire_Exists_repair_from_agreed_TTL (scripted all_is_well)
              [(duration_ptr (Some time.Minute), None);
               (bytes_value [x56], None)]
              [(bytes_value [x56], None)]
              winners_say_true time.Minute eq_refl eq_refl) as (HExpire & _).
  destruct (HExpire expire_mykey eq_refl) as (_ & Hset & _).
  destruct (Hset ltac:(discriminate) [x56] [] eq_refl) as (_ & Hc).
  exact Hc.
Defined.

Section GetTTLRepair.
Variable env : Env Call.
Variable w : world env.
Variable args : RepairArgs.
Variable rq : GetTTLRequest.t.

Hypothesis winner_is_a_value : is_ErrNotFound (Err args) = false.


End GetTTLRepair.




(** X8.  A rollback undoes what succeeded and nothing more.  The rollback
    of Set, and the rollback of the Set that a repair issues, hand the
    engine one best-effort [Delete(key)] on the nodes that had succeeded;
    the rollback of Lock hands it one best-effort [Unlock(key)] on them.
    These writes have no rollback of their own, and the rollback
    completes whatever the engine answers.  The rollbacks of Delete and
    Unlock call nothing. *)
Theorem rollback_undoes_on_succeeded_nodes (env : Env Call) (w : world env)
    (rollbackArgs : RollbackArgs) :
  (forall rq,
     result_of env (Set_rollbackOperator rq rollbackArgs) w = Done tt /\
     exists c,
       engine_writes (trace_of env (Set_rollbackOperator rq rollbackArgs) w)
       = [c] /\
       deletes_on (Nodes rollbackArgs) (SetRequest.Key rq) c) /\
  (forall rq,
     result_of env (Lock_rollbackOperator rq rollbackArgs) w = Done tt /\
     exists c,
       engine_writes (trace_of env (Lock_rollbackOperator rq rollbackArgs) w)
       = [c] /\
       unlocks_on (Nodes rollbackArgs) (LockRequest.Key rq) c) /\
  (forall rq,
     result_of env (Get_setRollbackOperator rq rollbackArgs) w = Done tt /\
     exists c,
       engine_writes
         (trace_of env (Get_setRollbackOperator rq rollbackArgs) w) = [c] /\
       deletes_on (Nodes rollbackArgs) (GetRequest.Key rq) c) /\
  (forall rq,
     result_of env (Expire_setRollbackOperator rq rollbackArgs) w = Done tt /\
     exists c,
       engine_writes
         (trace_of env (Expire_setRollbackOperator rq rollbackArgs) w) = [c] /\
       deletes_on (Nodes rollbackArgs) (ExpireRequest.Key rq) c) /\
  (forall rq,
     result_of env (Exists_setRollbackOperator rq rollbackArgs) w = Done tt /\
     exists c,
       engine_writes
         (trace_of env (Exists_setRollbackOperator rq rollbackArgs) w) = [c] /\
       deletes_on (Nodes rollbackArgs) (ExistsRequest.Key rq) c) /\
  (forall rq,
     result_of env (GetTTL_setRollbackOperator rq rollbackArgs) w = Done tt /\
     exists c,
       engine_writes
         (trace_of env (GetTTL_setRollbackOperator rq rollbackArgs) w) = [c] /\
       deletes_on (Nodes rollbackArgs) (GetTTLRequest.Key rq) c) /\
  exec env (Delete_rollbackOperator rollbackArgs) w = (Done tt, [], w) /\
  exec env (Unlock_rollbackOperator rollbackArgs) w = (Done tt, [], w).
Proof.
  refine (conj _ (conj _ (conj _ (conj _ (conj _ (conj _ (conj _ _)))))));
    try reflexivity; intros rq;
    unfold result_of, trace_of, Set_rollbackOperator, Lock_rollbackOperator,
      Get_setRollbackOperator, Expire_setRollbackOperator,
      Exists_setRollbackOperator, GetTTL_setRollbackOperator;
    simpl; answer_next; destruct x as [e|]; simpl;
    try (answer_next; destruct x);
    (split; [reflexivity|]; eexists; split; [reflexivity|]; repeat split).
Qed.

(** ** majority *)

Lemma majority_bounds (n : Z) :
  (0 <= n)%Z -> (n < 2 * majority n <= n + 2)%Z.
Proof.
  intros Hn. unfold majority.
  pose proof (Z.quot_rem' n 2) as Hqr.
  pose proof (Z.rem_bound_pos n 2 Hn ltac:(lia)) as Hr.
  lia.
Qed.

(** X9.  [majority] of the number of winners is a strict majority: more
    than half of them, and no more than all of them unless there is none.
    Of two groups of winners that do not overlap at most one reaches it.
    For an empty list of winners it is one vote. *)
Theorem majority_is_a_strict_majority :
  (forall winners : list Backend,
     (len winners < 2 * majority (len winners) <= len winners + 2)%Z /\
     (winners <> [] -> (1 <= majority (len winners) <= len winners)%Z)) /\
  (forall (winners : list Backend) (a b : Z),
     (0 <= a)%Z -> (0 <= b)%Z -> (a + b <= len winners)%Z ->
     (majority (len winners) <= a)%Z -> (b < majority (len winners))%Z) /\
  majority (len (@nil Backend)) = 1%Z.
Proof.
  assert (Hlen : forall l : list Backend, (0 <= len l)%Z)
    by (intros l; unfold len; lia).
  split; [|split].
  - intros winners. pose proof (majority_bounds (len winners) (Hlen winners)).
    split; [lia|]. intros Hne.
    assert (1 <= len winners)%Z
      by (destruct winners; [congruence | unfold len; simpl; lia]).
    lia.
  - intros winners a b Ha Hb Hab Hmaj.
    pose proof (majority_bounds (len winners) (Hlen winners)). lia.
  - reflexivity.
Qed.

Lemma majority_is_a_strict_majority_witness :
  (1 <= majority (len [node1; node2; node3]) <= len [node1; node2; node3])%Z /\
  (1 < majority (len [node1; node2; node3]))%Z.
Proof.
  destruct majority_is_a_strict_majority as (Hbounds & Hdisjoint & _).
  split.
  - apply (Hbounds [node1; node2; node3]). discriminate.
  - apply (Hdisjoint [node1; node2; node3] 2%Z 1%Z);
      vm_compute; discriminate.
Defined.

(** ** Comparers *)

Lemma bytes_Equal_eq (a b : list byte) : bytes_Equal a b = true <-> a = b.
Proof.
  unfold bytes_Equal.
  destruct (Stdlib.Lists.List.list_eq_dec Byte.byte_eq_dec a b);
    split; congruence.
Qed.

(** X10.  The byte comparer and the boolean comparer decide equality of
    the values they are given: they answer [true] exactly on equal
    values.  On a value of another type, the nil value included, on
    either side they panic with a failed type assertion. *)
Theorem exact_comparers :
  (forall a b : list byte,
     exists r, byteComparer (bytes_value a) (bytes_value b) = Done r /\
               (r = true <-> a = b)) /\
  (forall a b : bool,
     exists r, booleanComparer (bool_value a) (bool_value b) = Done r /\
               (r = true <-> a = b)) /\
  (forall x y : Value,
     (forall data, x <> bytes_value data) \/
     (forall data, y <> bytes_value data) ->
     byteComparer x y = Fault interface_conversion) /\
  (forall x y : Value,
     (forall b, x <> bool_value b) \/ (forall b, y <> bool_value b) ->
     booleanComparer x y = Fault interface_conversion).
Proof.
  split; [|split; [|split]].
  - intros a b. eexists. split; [reflexivity|]. apply bytes_Equal_eq.
  - intros a b. eexists. split; [reflexivity|]. apply Bool.eqb_true_iff.
  - intros x y [Hx | Hy].
    + destruct x; try reflexivity. now destruct (Hx data).
    + destruct y; destruct x; try reflexivity; now destruct (Hy data).
  - intros x y [Hx | Hy].
    + destruct x; try reflexivity. now destruct (Hx b).
    + destruct y; destruct x; try reflexivity; now destruct (Hy b).
Qed.

Lemma exact_comparers_witness :
  byteComparer nil_value (bytes_value [x56]) = Fault interface_conversion /\
  booleanComparer (bool_value true) nil_value = Fault interface_conversion.
Proof.
  destruct exact_comparers as (_ & _ & Hbytes & Hbool).
  split.
  - apply Hbytes. left. discriminate.
  - apply Hbool. right. discriminate.
Defined.

Lemma int64_abs_symmetric (x y : Z) :
  (if (time.sub x y <? 0)%Z then time.neg (time.sub x y) else time.sub x y)
  = (if (time.sub y x <? 0)%Z then time.neg (time.sub y x)
     else time.sub y x).
Proof.
  unfold time.sub, time.neg, int64_wrap.
  destruct (Z.ltb_spec ((x - y + 2 ^ 63) mod 2 ^ 64 - 2 ^ 63) 0);
    destruct (Z.ltb_spec ((y - x + 2 ^ 63) mod 2 ^ 64 - 2 ^ 63) 0);
    change (2 ^ 63)%Z with 9223372036854775808%Z in *;
    change (2 ^ 64)%Z with 18446744073709551616%Z in *;
    Z.div_mod_to_equations; lia.
Qed.

(** X11.  On durations the tolerant comparer is reflexive and symmetric,
    wrap-around included, but it is not transitive: 0 s and 1.5 s compare
    equal, 1.5 s and 3 s compare equal, 0 s and 3 s do not. *)
Theorem durationComparer_is_not_an_equivalence :
  (forall d : time.Duration,
     durationComparer (duration_ptr (Some d)) (duration_ptr (Some d))
     = Done true) /\
  (forall x y : time.Duration,
     durationComparer (duration_ptr (Some x)) (duration_ptr (Some y))
     = durationComparer (duration_ptr (Some y)) (duration_ptr (Some x))) /\
  ~ (forall x y z : time.Duration,
       durationComparer (duration_ptr (Some x)) (duration_ptr (Some y))
       = Done true ->
       durationComparer (duration_ptr (Some y)) (duration_ptr (Some z))
       = Done true ->
       durationComparer (duration_ptr (Some x)) (duration_ptr (Some z))
       = Done true).
Proof.
  split; [|split].
  - intros d. unfold durationComparer. simpl. unfold time.sub.
    now rewrite Z.sub_diag.
  - intros x y. unfold durationComparer. simpl.
    now rewrite (int64_abs_symmetric x y).
  - intros Htrans.
    specialize (Htrans 0%Z (1500 * time.Millisecond)%Z (3 * time.Second)%Z
                  eq_refl eq_refl).
    discriminate Htrans.
Qed.

(** ** The conversion itself *)

(** X12.  The conversion neither hides an error nor invents one: its
    result is nil exactly when its argument is.  Every other result is a
    status error, described by the text of the error converted, except
    that a deadline error is described by the text of
    [context.Canceled].  Converting twice does not keep the code: the
    second conversion of any error yields Internal. *)
Theorem convertErrorToGRPC_wraps_once :
  (forall err, convertErrorToGRPC err = None <-> err = None) /\
  (forall e, exists c,
     convertErrorToGRPC (Some e) =
     Some (status_Error c
             match e with
             | context_DeadlineExceeded => context_Canceled
             | _ => e
             end)) /\
  (forall e, exists d,
     convertErrorToGRPC (convertErrorToGRPC (Some e))
     = Some (status_Error codes_Internal d)).
Proof.
  split; [|split].
  - intros [e|]; [|now split]. destruct e; split; discriminate.
  - intros e. destruct e; simpl; eauto.
  - intros e. destruct e; simpl; eauto.
Qed.

(** ** Responses on success *)

Section Responses.
Variable s : coreService.
Variable env : Env Call.
Variable w : world env.
Variable v : Value.

Lemma Get_response rq :
  result_of env
    (performRead s (GetRequest.Key rq) (GetRequest.Options rq)
       (Get_readOperator rq) (Get_repairOperator rq) byteComparer) w
  = Done (v, None) ->
  result_of env (Get s rq) w
  = rmap (fun data => (Some (GetResponse.mk data), None)) (as_bytes v).
Proof.
  intros Hread. unfold Get. rewrite result_of_bind, Hread. now destruct v.
Qed.

Lemma Exists_response rq :
  result_of env
    (performRead s (ExistsRequest.Key rq) (ExistsRequest.Options rq)
       (Exists_readOperator rq) (Exists_repairOperator rq) booleanComparer) w
  = Done (v, None) ->
  result_of env (Exists s rq) w
  = rmap (fun b => (Some (ExistsResponse.mk b), None)) (as_bool v).
Proof.
  intros Hread. unfold Exists. rewrite result_of_bind, Hread. now destruct v.
Qed.

Lemma Expire_response rq :
  result_of env
    (performRead s (ExpireRequest.Key rq)
       (ReadOptions.mk (WriteOptions.Consistency (ExpireRequest.Options rq)))
       (Expire_readOperator rq) (Expire_repairOperator rq) booleanComparer) w
  = Done (v, None) ->
  result_of env (Expire s rq) w
  = rmap (fun b => (Some (ExpireResponse.mk b), None)) (as_bool v).
Proof.
  intros Hread. unfold Expire. rewrite result_of_bind, Hread. now destruct v.
Qed.

Lemma GetTTL_response rq :
  result_of env
    (performRead s (GetTTLRequest.Key rq) (GetTTLRequest.Options rq)
       (GetTTL_readOperator rq) (GetTTL_repairOperator rq) durationComparer) w
  = Done (v, None) ->
  result_of env (GetTTL s rq) w
  = if is_nil v then Done (Some (GetTTLResponse.mk None), None)
    else rmap (fun p => (Some (GetTTLResponse.mk p), None))
           (as_duration_ptr v).
Proof.
  intros Hread. unfold GetTTL. rewrite result_of_bind, Hread. now destruct v.
Qed.
End Responses.

(** X13.  When the underlying read succeeds with a value of the type the
    operation works on, the response carries that value and the error is
    nil: the bytes for Get, the boolean for Exists and Expire, the
    duration pointer for GetTTL.  When it succeeds with a value of
    another type the operation panics with a failed type assertion; the
    nil value does so for Get, Exists and Expire, while GetTTL answers it
    with a nil TTL. *)
Theorem responses_carry_the_value_read (s : coreService) (env : Env Call)
    (w : world env) (v : Value) :
  (forall rq,
     result_of env
       (performRead s (GetRequest.Key rq) (GetRequest.Options rq)
          (Get_readOperator rq) (Get_repairOperator rq) byteComparer) w
     = Done (v, None) ->
     result_of env (Get s rq) w
     = match v with
       | bytes_value data => Done (Some (GetResponse.mk data), None)
       | _ => Fault interface_conversion
       end) /\
  (forall rq,
     result_of env
       (performRead s (ExistsRequest.Key rq) (ExistsRequest.Options rq)
          (Exists_readOperator rq) (Exists_repairOperator rq)
          booleanComparer) w
     = Done (v, None) ->
     result_of env (Exists s rq) w
     = match v with
       | bool_value b => Done (Some (ExistsResponse.mk b), None)
       | _ => Fault interface_conversion
       end) /\
  (forall rq,
     result_of env
       (performRead s (ExpireRequest.Key rq)
          (ReadOptions.mk
             (WriteOptions.Consistency (ExpireRequest.Options rq)))
          (Expire_readOperator rq) (Expire_repairOperator rq)
          booleanComparer) w
     = Done (v, None) ->
     result_of env (Expire s rq) w
     = match v with
       | bool_value b => Done (Some (ExpireResponse.mk b), None)
       | _ => Fault interface_conversion
       end) /\
  (forall rq,
     result_of env
       (performRead s (GetTTLRequest.Key rq) (GetTTLRequest.Options rq)
          (GetTTL_readOperator rq) (GetTTL_repairOperator rq)
          durationComparer) w
     = Done (v, None) ->
     result_of env (GetTTL s rq) w
     = match v with
       | duration_ptr p => Done (Some (GetTTLResponse.mk p), None)
       | nil_value => Done (Some (GetTTLResponse.mk None), None)
       | _ => Fault interface_conversion
       end).
Proof.
  refine (conj _ (conj _ (conj _ _))); intros rq Hread.
  - rewrite (Get_response s env w v rq Hread). now destruct v.
  - rewrite (Exists_response s env w v rq Hread). now destruct v.
  - rewrite (Expire_response s env w v rq Hread). now destruct v.
  - rewrite (GetTTL_response s env w v rq Hread). now destruct v.
Qed.

Lemma responses_carry_the_value_read_witness :
  result_of (scripted all_is_well) (Get (New []) get_mykey)
    [(bytes_value [x56], None)]
  = Done (Some (GetResponse.mk [x56]), None) /\
  result_of (scripted all_is_well) (Get (New []) get_mykey)
    [(nil_value, None)]
  = Fault interface_conversion.
Proof.
  split.
  - destruct (responses_carry_the_value_read (New []) (scripted all_is_well)
                [(bytes_value [x56], None)] (bytes_value [x56]))
      as (HGet & _).
    apply (HGet get_mykey). reflexivity.
  - destruct (responses_carry_the_value_read (New []) (scripted all_is_well)
                [(nil_value, None)] nil_value) as (HGet & _).
    apply (HGet get_mykey). reflexivity.
Defined.

(** ** The order of a sequential write *)

Lemma distinct_addresses (l : list Backend) (x1 x2 : Backend) :
  NoDup (map Address l) -> In x1 l -> In x2 l ->
  Address x1 = Address x2 -> x1 = x2.
Proof.
  induction l as [|y l IH]; simpl; [contradiction|].
  intros Hnodup H1 H2 Haddr.
  apply NoDup_cons in Hnodup as [Hy Hl].
  assert (Hin : forall x, In x l -> Address x <> Address y).
  { intros x Hx Heq. apply Hy. rewrite <- Heq.
    apply list_elem_of_In, in_map, Hx. }
  destruct H1 as [<-|H1], H2 as [<-|H2]; auto.
  - symmetry in Haddr. now destruct (Hin x2 H2).
  - now destruct (Hin x1 H1).
Qed.

Lemma sortNodes_canonical (sorter1 sorter2 : SliceSorter)
    (l1 l2 : list Backend) :
  Permutation l1 l2 -> NoDup (map Address l1) ->
  @sortNodes sorter1 l1 = @sortNodes sorter2 l2.
Proof.
  intros Hperm Hnodup.
  pose proof (@sortNodes_Permutation sorter1 l1) as H1.
  pose proof (@sortNodes_Permutation sorter2 l2) as H2.
  apply (StronglySorted_unique_strong
           (fun a b : Backend => String.leb (Address a) (Address b) = true)).
  - intros x1 x2 Hx1 Hx2 H12 H21.
    apply (distinct_addresses l1); [exact Hnodup| | |].
    + apply list_elem_of_In in Hx1.
      eapply Permutation_in; [symmetry; exact H1 | exact Hx1].
    + apply list_elem_of_In in Hx2.
      eapply Permutation_in; [|exact Hx2].
      symmetry. now rewrite Hperm.
    + now apply String.leb_antisym.
  - apply sortNodes_by_Address.
  - apply sortNodes_by_Address.
  - now rewrite <- H1, <- H2.
Qed.

Lemma Lock_write_targets (sorter : SliceSorter) (s : coreService)
    (env : Env Call) (w w1 : world env) (rq : LockRequest.t)
    (view : WriteClusterView) :
  answer env
    (cluster_Write (LockRequest.Key rq)
       (writeConsistency s (LockRequest.Options rq))) w
  = ((view, None), w1) ->
  write_targets (trace_of env (Lock s rq) w) = [sortNodes (Backends view)].
Proof.
  intros Hview.
  destruct (Lock_dispatch s env w rq view w1 Hview) as [err ->].
  reflexivity.
Qed.

(** X14.  The order in which Lock reaches the backends depends only on
    the set of backends, not on the order in which the cluster lists
    them, nor on how [sort.Slice] treats ties: when the addresses are
    pairwise distinct, two lists holding the same backends are sorted by
    [sortNodes] into the same list, and two Lock requests whose views
    hold the same backends hand the engine the same list to go through
    in sequence. *)
Theorem Lock_order_is_canonical (sorter1 sorter2 : SliceSorter) :
  (forall l1 l2 : list Backend,
     Permutation l1 l2 -> NoDup (map Address l1) ->
     @sortNodes sorter1 l1 = @sortNodes sorter2 l2) /\
  (forall (s1 s2 : coreService) (env1 env2 : Env Call)
          (w1 w1' : world env1) (w2 w2' : world env2)
          (rq1 rq2 : LockRequest.t) (view1 view2 : WriteClusterView),
     answer env1
       (cluster_Write (LockRequest.Key rq1)
          (writeConsistency s1 (LockRequest.Options rq1))) w1
     = ((view1, None), w1') ->
     answer env2
       (cluster_Write (LockRequest.Key rq2)
          (writeConsistency s2 (LockRequest.Options rq2))) w2
     = ((view2, None), w2') ->
     Permutation (Backends view1) (Backends view2) ->
     NoDup (map Address (Backends view1)) ->
     write_targets (trace_of env1 (@Lock sorter1 s1 rq1) w1)
     = write_targets (trace_of env2 (@Lock sorter2 s2 rq2) w2)).
Proof.
  split.
  - apply sortNodes_canonical.
  - intros s1 s2 env1 env2 w1 w1' w2 w2' rq1 rq2 view1 view2
      Hview1 Hview2 Hperm Hnodup.
    rewrite (Lock_write_targets sorter1 s1 env1 w1 w1' rq1 view1 Hview1).
    rewrite (Lock_write_targets sorter2 s2 env2 w2 w2' rq2 view2 Hview2).
    f_equal. now apply sortNodes_canonical.
Qed.

Lemma Lock_order_is_canonical_witness :
  @sortNodes insertion_sorter [node1; node2; node3]
  = @sortNodes insertion_sorter [node3; node1; node2].
Proof.
  destruct (Lock_order_is_canonical insertion_sorter insertion_sorter)
    as (Hsort & _).
  apply Hsort.
  - symmetry. apply (Permutation_cons_append [node1; node2] node3).
  - apply NoDup_ListNoDup. simpl.
    repeat constructor; simpl; intuition discriminate.
Defined.

(** ** Operators on a backend *)

(** X15.  The read operators of Exists and of Expire call the backend
    once and report presence as a pair in which the value is [true]
    exactly when the error is nil.  A key that the backend reports
    absent without an error is reported by the Exists operator as
    [ErrNotFound]. *)
Theorem presence_operators (env : Env BackendMethod) (w : world env)
    (node : Backend) :
  (forall rq,
     exists (answered : bool * option error) (b : bool) (err : option error),
       trace_of env (Exists_readOperator rq node) w
       = [Ev (Backend_Exists node (ExistsRequest.Key rq)) answered] /\
       result_of env (Exists_readOperator rq node) w
       = Done (bool_value b, err) /\
       (b = true <-> err = None) /\
       (answered = (false, None) -> err = Some ErrNotFound)) /\
  (forall rq,
     exists (answered : option error) (b : bool),
       trace_of env (Expire_readOperator rq node) w
       = [Ev (Backend_Expire node (ExpireRequest.Key rq)
                (ExpireRequest.Expiration rq)) answered] /\
       result_of env (Expire_readOperator rq node) w
       = Done (bool_value b, answered) /\
       (b = true <-> answered = None)).
Proof.
  split; intros rq; unfold trace_of, result_of, Exists_readOperator,
    Expire_readOperator; simpl; answer_next.
  - destruct x as [[|] [e|]]; simpl;
      eexists; eexists; eexists;
      (split; [reflexivity|]; split; [reflexivity|]; split;
       [split; congruence | congruence]).
  - destruct x as [e|]; simpl;
      eexists; eexists;
      (split; [reflexivity|]; split; [reflexivity|]; split; congruence).
Qed.

(** ** The service that serve.go builds *)

Section ServeProperties.
Variable strings_ToLower : string -> string.

Lemma convertConsistencyOrPanic_explicit (consistency : string)
    (c : ConsistencyLevel) :
  convertConsistencyOrPanic strings_ToLower consistency = Some c ->
  c <> ConsistencyLevel_DEFAULT.
Proof.
  unfold convertConsistencyOrPanic.
  repeat match goal with
         | |- context [String.eqb ?a ?b] => destruct (String.eqb a b)
         end; intros [= <-]; discriminate.
Qed.

Lemma getService_defaults (config : Config.t) (svc : coreService) :
  getService strings_ToLower config = Some svc ->
  (if String.eqb (Config.DefaultReadConsistency config) ""
   then defaultReadConsistency svc = ConsistencyLevel_MAJORITY
   else convertConsistencyOrPanic strings_ToLower
          (Config.DefaultReadConsistency config)
        = Some (defaultReadConsistency svc)) /\
  (if String.eqb (Config.DefaultWriteConsistency config) ""
   then defaultWriteConsistency svc = ConsistencyLevel_ALL
   else convertConsistencyOrPanic strings_ToLower
          (Config.DefaultWriteConsistency config)
        = Some (defaultWriteConsistency svc)).
Proof.
  unfold getService.
  destruct (String.eqb (Config.DefaultReadConsistency config) ""); simpl;
    destruct (String.eqb (Config.DefaultWriteConsistency config) ""); simpl;
    repeat match goal with
           | |- context [convertConsistencyOrPanic ?f ?x] =>
               destruct (convertConsistencyOrPanic f x); simpl
           end;
    try discriminate; intros [= <-]; now split.
Qed.

Lemma getService_explicit_defaults (config : Config.t) (svc : coreService) :
  getService strings_ToLower config = Some svc ->
  defaultReadConsistency svc <> ConsistencyLevel_DEFAULT /\
  defaultWriteConsistency svc <> ConsistencyLevel_DEFAULT.
Proof.
  intros Hsvc. destruct (getService_defaults config svc Hsvc) as [Hr Hw].
  split.
  - destruct (String.eqb (Config.DefaultReadConsistency config) "").
    + rewrite Hr. discriminate.
    + eapply convertConsistencyOrPanic_explicit, Hr.
  - destruct (String.eqb (Config.DefaultWriteConsistency config) "").
    + rewrite Hw. discriminate.
    + eapply convertConsistencyOrPanic_explicit, Hw.
Qed.
End ServeProperties.

Lemma explicit_default_substitutes (s : coreService) :
  defaultReadConsistency s <> ConsistencyLevel_DEFAULT ->
  defaultWriteConsistency s <> ConsistencyLevel_DEFAULT ->
  (forall o, readConsistency s o <> ConsistencyLevel_DEFAULT) /\
  (forall o, writeConsistency s o <> ConsistencyLevel_DEFAULT).
Proof.
  intros Hr Hw. split; intros [c]; unfold readConsistency, writeConsistency;
    simpl; destruct c; (assumption || discriminate).
Qed.

(** X16.  The converter of configured consistency levels never yields
    DEFAULT, so a service built by [getService] has explicit defaults, and
    whatever level a request carries, no operation of such a service asks
    the cluster to resolve a view at level DEFAULT. *)
Theorem getService_never_asks_at_DEFAULT (strings_ToLower : string -> string)
    (config : Config.t) (svc : coreService) :
  getService strings_ToLower config = Some svc ->
  (defaultReadConsistency svc <> ConsistencyLevel_DEFAULT /\
   defaultWriteConsistency svc <> ConsistencyLevel_DEFAULT) /\
  forall (sorter : SliceSorter) (env : Env Call) (w : world env)
         (asked : ConsistencyLevel),
    (forall rq, In asked (cluster_levels (trace_of env (Set_ svc rq) w)) ->
                asked <> ConsistencyLevel_DEFAULT) /\
    (forall rq, In asked (cluster_levels (trace_of env (Delete svc rq) w)) ->
                asked <> ConsistencyLevel_DEFAULT) /\
    (forall rq, In asked (cluster_levels (trace_of env (Lock svc rq) w)) ->
                asked <> ConsistencyLevel_DEFAULT) /\
    (forall rq, In asked (cluster_levels (trace_of env (Unlock svc rq) w)) ->
                asked <> ConsistencyLevel_DEFAULT) /\
    (forall rq, In asked (cluster_levels (trace_of env (Get svc rq) w)) ->
                asked <> ConsistencyLevel_DEFAULT) /\
    (forall rq, In asked (cluster_levels (trace_of env (GetTTL svc rq) w)) ->
                asked <> ConsistencyLevel_DEFAULT) /\
    (forall rq, In asked (cluster_levels (trace_of env (Exists svc rq) w)) ->
                asked <> ConsistencyLevel_DEFAULT) /\
    (forall rq, In asked (cluster_levels (trace_of env (Expire svc rq) w)) ->
                asked <> ConsistencyLevel_DEFAULT).
Proof.
  intros Hsvc.
  destruct (getService_explicit_defaults strings_ToLower config svc Hsvc)
    as [Hr Hw].
  split; [now split|].
  intros sorter env w asked.
  destruct (explicit_default_substitutes svc Hr Hw) as [Hread Hwrite].
  destruct (operations_ask_cluster svc env w)
    as (HSet & HDelete & HLock & HUnlock & HGet & HGetTTL & HExists & HExpire).
  refine (conj _ (conj _ (conj _ (conj _ (conj _
           (conj _ (conj _ _)))))));
    intros rq;
    first [ rewrite HSet | rewrite HDelete | rewrite HLock | rewrite HUnlock
          | rewrite HGet | rewrite HGetTTL | rewrite HExists
          | rewrite HExpire ];
    intros [<- | []]; auto.
Qed.

Lemma getService_never_asks_at_DEFAULT_witness :
  getService ascii_ToLower read_at_ONE
  = Some (mkCoreService ConsistencyLevel_ALL ConsistencyLevel_ONE) /\
  ConsistencyLevel_ONE <> ConsistencyLevel_DEFAULT.
Proof.
  split; [reflexivity|].
  destruct (getService_never_asks_at_DEFAULT ascii_ToLower read_at_ONE
              (mkCoreService ConsistencyLevel_ALL ConsistencyLevel_ONE)
              eq_refl) as [[Hr _] _].
  exact Hr.
Defined.

(** X17.  The service and the redis transport take their defaults from
    the same configuration, and one is built exactly when the other is.
    They agree on the default for reads.  They agree on the default for
    writes when the configuration names one; when it names none, the
    service's default is ALL while the transport is given MAJORITY. *)
Theorem service_and_transport_defaults (strings_ToLower : string -> string)
    (config : Config.t) :
  (forall svc,
     getService strings_ToLower config = Some svc ->
     exists srv,
       makeRedisServerOrPanic strings_ToLower svc config = Some srv /\
       RedisServer.svc srv = svc /\
       RedisServer.readConsistency srv = defaultReadConsistency svc /\
       if String.eqb (Config.DefaultWriteConsistency config) ""
       then RedisServer.writeConsistency srv = ConsistencyLevel_MAJORITY /\
            defaultWriteConsistency svc = ConsistencyLevel_ALL
       else RedisServer.writeConsistency srv = defaultWriteConsistency svc) /\
  (getService strings_ToLower config = None ->
   forall svc, makeRedisServerOrPanic strings_ToLower svc config = None).
Proof.
  split.
  - intros svc Hsvc.
    destruct (getService_defaults strings_ToLower config svc Hsvc) as [Hr Hw].
    unfold makeRedisServerOrPanic.
    destruct (String.eqb (Config.DefaultReadConsistency config) ""); simpl;
      destruct (String.eqb (Config.DefaultWriteConsistency config) ""); simpl;
      try rewrite Hr; try rewrite Hw; simpl; eexists;
      (split; [reflexivity|]); simpl; auto.
  - unfold getService, makeRedisServerOrPanic.
    destruct (String.eqb (Config.DefaultReadConsistency config) ""); simpl;
      destruct (String.eqb (Config.DefaultWriteConsistency config) ""); simpl;
      repeat match goal with
             | |- context [convertConsistencyOrPanic ?f ?x] =>
                 destruct (convertConsistencyOrPanic f x); simpl
             end;
      try discriminate; reflexivity.
Qed.

Lemma service_and_transport_defaults_witness :
  exists srv,
    makeRedisServerOrPanic ascii_ToLower
      (mkCoreService ConsistencyLevel_ALL ConsistencyLevel_ONE) read_at_ONE
    = Some srv /\
    RedisServer.readConsistency srv = ConsistencyLevel_ONE /\
    RedisServer.writeConsistency srv = ConsistencyLevel_MAJORITY.
Proof.
  destruct (service_and_transport_defaults ascii_ToLower read_at_ONE)
    as (Hbuilt & _).
  destruct (Hbuilt (mkCoreService ConsistencyLevel_ALL ConsistencyLevel_ONE)
              eq_refl) as (srv & Hsrv & _ & Hr & Hw & _).
  exists srv. auto.
Defined.
